(** * Market dashboard services: a shallow embedding

    The data services of the BTC / gold dashboard, translated to Rocq, with
    the properties of the design note proved about them.  The services exist
    twice in the repository: as [services/marketService.ts], which the
    component tree of [App.tsx] imports, and as a copy merged into the
    single-file application.  The data fetchers of the two copies agree line
    for line and are embedded once; [fetchAIAnalysis] differs between them
    and is embedded twice, in the modules [MarketService] and [Merged].

    - JavaScript numbers are IEEE 754 binary64 values: they are modelled by
      Rocq's primitive [float], whose operations are the same ones.
    - What the program does not define itself is a parameter: [parseFloat],
      the number and date formatting of the host, the network, and the
      text-generation SDK.
    - A response body is read through the schema of its endpoint: the
      24-hour ticker is an object of primitive fields, a candle series is an
      array of rows of primitive fields.  Where a property ranges over every
      answer a request can get, [safeFetch] and [fetchHighLow] are taken in
      their embedding over arbitrary JSON (module [Raw]), in which a
      malformed answer makes the batch reject.
    - [Promise.all] over an array of promises resolves to the array of their
      results in the order of the array, and no sub-fetch of the data
      fetchers can reject ([safeFetch] catches everything), so a batch of
      sub-fetches is a [map].  [fetchAIAnalysis], whose SDK calls can throw,
      is a computation in the exception-and-trace monad of module [Eff].
    - Of the components, the parts that decide something are embedded:
      [handleAnalyze] of the two analysis panels, [loadAllData] of the
      merged application, the [fundingRate] prop, the axes and series of
      [MarketChart], and the [process] that the entry point installs. *)

From Stdlib Require Import List String Ascii Bool Arith ZArith Lia.
From Stdlib Require Import Floats.PrimFloat Floats.SpecFloat Floats.FloatOps
  Floats.FloatAxioms.
From Stdlib Require DecimalString.
Import ListNotations.

Local Open Scope list_scope.
Local Open Scope string_scope.

(** ** JavaScript values *)

Module Js.

(** Numbers. [x > y] is [ltb y x]; any comparison with NaN is false. *)
Definition num : Set := float.

Definition gt (x y : num) : bool := PrimFloat.ltb y x.

Definition isNaN (x : num) : bool := negb (PrimFloat.eqb x x).

(** [x == 0] on numbers: true of [+0] and of [-0]. *)
Definition isZero (x : num) : bool := PrimFloat.eqb x 0%float.

(** [!x] for a number: [0], [-0] and [NaN] are the falsy numbers. *)
Definition num_falsy (x : num) : bool := isZero x || isNaN x.

(** The primitive values a field of a JSON row or object holds. *)
Inductive value : Type :=
| Undefined
| Null
| Bool (b : bool)
| Num (x : num)
| Str (s : string).

(** SameValueZero, the key equality of [Map]: numbers by value with
    [NaN] equal to itself and [+0] equal to [-0], strings by content. *)
Definition sameValueZero (a b : value) : bool :=
  match a, b with
  | Undefined, Undefined => true
  | Null, Null => true
  | Bool x, Bool y => Bool.eqb x y
  | Num x, Num y => PrimFloat.eqb x y || (isNaN x && isNaN y)
  | Str s, Str t => String.eqb s t
  | _, _ => false
  end.

(** [a[i]] on an array: [undefined] past the end. *)
Definition index (a : list value) (i : nat) : value := nth i a Undefined.

(** [!s] for a value that is a string or [undefined]. *)
Definition str_falsy (s : option string) : bool :=
  match s with
  | None => true
  | Some s => String.eqb s ""
  end.

(** [s.includes(t)] *)
Fixpoint includes (s t : string) : bool :=
  String.prefix t s
  || match s with
     | EmptyString => false
     | String _ s' => includes s' t
     end.

(** [a.find(p)] *)
Definition find {A : Type} (p : A -> bool) (a : list A) : option A :=
  List.find p a.

(** [a.join(sep)] on an array of strings *)
Fixpoint join (sep : string) (a : list string) : string :=
  match a with
  | [] => ""
  | [s] => s
  | s :: rest => s ++ sep ++ join sep rest
  end.

(** A [Map] with primitive keys, as its entries in insertion order.
    [set] on a key already present replaces the value in place. *)
Definition Map (V : Type) : Type := list (value * V).

Fixpoint Map_set {V : Type} (m : Map V) (k : value) (v : V) : Map V :=
  match m with
  | [] => [(k, v)]
  | (k', v') :: m' =>
      if sameValueZero k' k then (k', v) :: m' else (k', v') :: Map_set m' k v
  end.

Fixpoint Map_get {V : Type} (m : Map V) (k : value) : option V :=
  match m with
  | [] => None
  | (k', v) :: m' => if sameValueZero k' k then Some v else Map_get m' k
  end.

End Js.

(** ** The network and [safeFetch] *)

(** What [fetch(url)] followed by [res.json()] can do: the request rejects,
    or a response arrives with its [ok] flag and [status], and its body
    parses ([Some]) or [res.json()] rejects ([None]). *)
Inductive fetch_outcome (A : Type) : Type :=
| NetworkError
| Response (ok : bool) (status : Z) (body : option A).
Arguments NetworkError {A}.
Arguments Response {A} ok status body.

Definition BINANCE_API : string := "https://api.binance.com/api/v3".

(** [safeFetch] on answers of the schema of an endpoint: every failure is
    logged and becomes [null] ([None]).  [Raw.safeFetch] is the function on
    answers of any shape. *)
Definition safeFetch {A : Type} (fetch : string -> fetch_outcome A)
    (url : string) : option A :=
  match fetch url with
  | NetworkError => None
  | Response ok _ body => if ok then body else None
  end.

(** ** Tickers *)

(** The JSON object of [/ticker/24hr], by the fields the program reads;
    a missing field reads as [undefined]. *)
Record ticker_json : Type := {
  lastPrice : Js.value;
  priceChangePercent : Js.value;
  priceChange : Js.value
}.

(** The object a ticker fetcher returns; [change24h] is a property only
    [fetchBTCPrice] sets, and only on success. *)
Record ticker : Type := {
  price : Js.num;
  changePercent : Js.num;
  change24h : option Js.num
}.

Section Tickers.

Variable parseFloat : Js.value -> Js.num.
Variable fetch : string -> fetch_outcome ticker_json.

Definition fetchBTCPrice : ticker :=
  match safeFetch fetch (BINANCE_API ++ "/ticker/24hr?symbol=BTCUSDT") with
  | None =>
      {| price := 95000%float; changePercent := 0%float; change24h := None |}
  | Some data =>
      {| price := parseFloat (lastPrice data);
         changePercent := parseFloat (priceChangePercent data);
         change24h := Some (parseFloat (priceChange data)) |}
  end.

Definition fetchGoldPrice : ticker :=
  (* Use PAXGUSDT (Paxos Gold) as a proxy for the gold price *)
  match safeFetch fetch (BINANCE_API ++ "/ticker/24hr?symbol=PAXGUSDT") with
  | None =>
      {| price := 2650%float; changePercent := 0%float; change24h := None |}
  | Some data =>
      {| price := parseFloat (lastPrice data);
         changePercent := parseFloat (priceChangePercent data);
         change24h := None |}
  end.

End Tickers.

(** ** Candles: [fetchHighLow] *)

(** A row of [/klines]: [[openTime, open, high, low, close, ...]]. *)
Definition kline : Type := list Js.value.

Record definition : Type := {
  label : string;
  interval : string;
  limit : nat
}.

Record HighLowData : Type := {
  timeframe : string;
  high : Js.num;
  low : Js.num;
  rangePercent : Js.num
}.

Definition definitions : list definition :=
  [ {| label := "1 Giờ"; interval := "1h"; limit := 2 |};
    {| label := "4 Giờ"; interval := "4h"; limit := 2 |};
    {| label := "24 Giờ"; interval := "1d"; limit := 1 |};
    {| label := "7 Ngày"; interval := "1w"; limit := 1 |} ].

(** [`${n}`] for the small naturals used as candle counts *)
Definition natToString (n : nat) : string :=
  DecimalString.NilEmpty.string_of_uint (Nat.to_uint n).

Definition klinesUrl (symbol interval : string) (limit : nat) : string :=
  BINANCE_API ++ "/klines?symbol=" ++ symbol ++ "&interval=" ++ interval
  ++ "&limit=" ++ natToString limit.

(** [low > 0 ? ((high - low) / low) * 100 : 0] *)
Definition range (high low : Js.num) : Js.num :=
  if Js.gt low 0%float
  then PrimFloat.mul (PrimFloat.div (PrimFloat.sub high low) low) 100%float
  else 0%float.

(** The default value of the parameter [symbol] of [fetchHighLow]. *)
Definition symbolOrDefault (symbol : option string) : string :=
  match symbol with
  | Some s => s
  | None => "BTCUSDT"
  end.

Section HighLow.

Variable parseFloat : Js.value -> Js.num.
Variable fetch : string -> fetch_outcome (list kline).

(** The body of the [definitions.map] callback, on answers that are lists
    of candle rows; [Raw.highLowOf] is the callback on answers of any
    shape. *)
Definition highLowOf (symbol : string) (def : definition) : HighLowData :=
  let data :=
    safeFetch fetch (klinesUrl symbol (interval def) (limit def)) in
  match data with
  | None =>
      {| timeframe := label def; high := 0%float; low := 0%float;
         rangePercent := 0%float |}
  | Some data =>
      if Nat.eqb (List.length data) 0 then
        {| timeframe := label def; high := 0%float; low := 0%float;
           rangePercent := 0%float |}
      else
        (* in range here, so the default of [nth] is never read *)
        let candle := nth (List.length data - 1) data [] in
        let high := parseFloat (Js.index candle 2) in
        let low := parseFloat (Js.index candle 3) in
        let range := range high low in
        {| timeframe := label def; high := high; low := low;
           rangePercent := range |}
  end.

(** [symbol] has the default value ['BTCUSDT']. *)
Definition fetchHighLow (symbol : option string) : list HighLowData :=
  let symbol := symbolOrDefault symbol in
  let results := map (highLowOf symbol) definitions in
  results.

End HighLow.

(** *** The arithmetic of [range], step by step

    To speak of which operations an evaluation performs, the expression of
    [range] is also given as syntax, with an evaluator that follows
    JavaScript's order (operands left to right, one branch of a conditional)
    and records the operands of every division it performs. *)

Inductive expr : Type :=
| EHigh
| ELow
| EConst (c : Js.num)
| ESub (a b : expr)
| EDiv (a b : expr)
| EMul (a b : expr)
| ECondGt (a b : expr) (thn els : expr).

Fixpoint eval (high low : Js.num) (e : expr)
  : Js.num * list (Js.num * Js.num) :=
  match e with
  | EHigh => (high, [])
  | ELow => (low, [])
  | EConst c => (c, [])
  | ESub a b =>
      let '(x, t1) := eval high low a in
      let '(y, t2) := eval high low b in
      (PrimFloat.sub x y, (t1 ++ t2)%list)
  | EDiv a b =>
      let '(x, t1) := eval high low a in
      let '(y, t2) := eval high low b in
      (PrimFloat.div x y, (t1 ++ t2 ++ [(x, y)])%list)
  | EMul a b =>
      let '(x, t1) := eval high low a in
      let '(y, t2) := eval high low b in
      (PrimFloat.mul x y, (t1 ++ t2)%list)
  | ECondGt a b thn els =>
      let '(x, t1) := eval high low a in
      let '(y, t2) := eval high low b in
      let '(v, t3) := eval high low (if Js.gt x y then thn else els) in
      (v, (t1 ++ t2 ++ t3)%list)
  end.

Definition range_expr : expr :=
  ECondGt ELow (EConst 0%float)
    (EMul (EDiv (ESub EHigh ELow) ELow) (EConst 100%float))
    (EConst 0%float).

(** The divisions, as (dividend, divisor), that computing [range] performs. *)
Definition range_divisions (high low : Js.num) : list (Js.num * Js.num) :=
  snd (eval high low range_expr).

(** ** The chart series: [fetchChartData] *)

Module TimeFrame.
Definition H1 : string := "1h".
Definition H4 : string := "4h".
Definition D1 : string := "24h".
Definition D7 : string := "7d".
End TimeFrame.

Record ChartDataPoint : Type := {
  time : string;
  timestamp : Js.value;
  btc : Js.num;
  xau : Js.num
}.

(** The [switch] on the time frame: the candle interval and count. The enum
    is a string at run time, and [switch] compares with [===]. *)
Definition candleParams (timeFrame : string) : string * nat :=
  if String.eqb timeFrame TimeFrame.H1 then ("1m", 60)
  else if String.eqb timeFrame TimeFrame.H4 then ("5m", 48)
  else if String.eqb timeFrame TimeFrame.D1 then ("15m", 96)
  else if String.eqb timeFrame TimeFrame.D7 then ("2h", 84)
  else ("1h", 168).

Section Chart.

Variable parseFloat : Js.value -> Js.num.
Variable fetch : string -> fetch_outcome (list kline).
(** [new Date(t).toLocaleDateString([], {month, day, hour})] and
    [new Date(t).toLocaleTimeString([], {hour, minute})] *)
Variable toLocaleDateString : Js.value -> string.
Variable toLocaleTimeString : Js.value -> string.

(** The callback of [goldKlines.forEach]. *)
Definition goldMapStep (goldMap : Js.Map Js.num) (k : kline)
  : Js.Map Js.num :=
  Js.Map_set goldMap (Js.index k 0) (parseFloat (Js.index k 4)).

(** The [goldMap] after the [forEach]. *)
Definition goldMapOf (goldKlines : option (list kline)) : Js.Map Js.num :=
  match goldKlines with
  | Some goldKlines => fold_left goldMapStep goldKlines []
  | None => []
  end.

(** The callback of [baseData.map]. *)
Definition chartPoint (timeFrame : string) (btcData : list kline)
    (goldMap : Js.Map Js.num) (k : kline) : ChartDataPoint :=
  let timestamp := Js.index k 0 in
  let btcClose :=
    if Nat.ltb 0 (List.length btcData) then parseFloat (Js.index k 4) else 0%float in
  (* goldMap.get(timestamp) || 2650 *)
  let xauClose :=
    match Js.Map_get goldMap timestamp with
    | Some v => if Js.num_falsy v then 2650%float else v
    | None => 2650%float
    end in
  let timeLabel :=
    if String.eqb timeFrame TimeFrame.D7
    then toLocaleDateString timestamp
    else toLocaleTimeString timestamp in
  {| time := timeLabel; timestamp := timestamp;
     btc := btcClose; xau := xauClose |}.

(** The part of [fetchChartData] after the two series have been awaited. *)
Definition mergeKlines (timeFrame : string)
    (btcKlines goldKlines : option (list kline)) : list ChartDataPoint :=
  match btcKlines, goldKlines with
  | None, None => []
  | _, _ =>
      let btcData := match btcKlines with Some l => l | None => [] end in
      let goldMap := goldMapOf goldKlines in
      let baseData :=
        if Nat.ltb 0 (List.length btcData) then btcData
        else match goldKlines with Some l => l | None => [] end in
      map (chartPoint timeFrame btcData goldMap) baseData
  end.

Definition fetchChartData (timeFrame : string) : list ChartDataPoint :=
  let '(interval, limit) := candleParams timeFrame in
  let btcKlines := safeFetch fetch (klinesUrl "BTCUSDT" interval limit) in
  let goldKlines := safeFetch fetch (klinesUrl "PAXGUSDT" interval limit) in
  mergeKlines timeFrame btcKlines goldKlines.

End Chart.

(** ** Effects: exceptions and the calls sent to the text service *)

Module Eff.

Inductive completion (A : Type) : Type :=
| Returned (a : A)
| Thrown (error : string).
Arguments Returned {A} a.
Arguments Thrown {A} error.

(** A computation reads and extends the log of events [E] and completes
    normally or abruptly. *)
Definition M (E A : Type) : Type := list E -> completion A * list E.

Definition ret {E A : Type} (a : A) : M E A := fun log => (Returned a, log).

Definition bind {E A B : Type} (c : M E A) (k : A -> M E B) : M E B :=
  fun log =>
    match c log with
    | (Returned a, log') => k a log'
    | (Thrown e, log') => (Thrown e, log')
    end.

(** An operation of the environment that may throw, without an event. *)
Definition lift {E A : Type} (r : completion A) : M E A := fun log => (r, log).

(** An operation of the environment that is an event, then may throw. *)
Definition call {E A : Type} (ev : E) (r : completion A) : M E A :=
  fun log => (r, (log ++ [ev])%list).

(** [try { c } catch (error) { h error }] *)
Definition tryCatch {E A : Type} (c : M E A) (h : string -> M E A) : M E A :=
  fun log =>
    match c log with
    | (Returned a, log') => (Returned a, log')
    | (Thrown e, log') => h e log'
    end.

End Eff.

Notation "x <- c ;; k" := (Eff.bind c (fun x => k))
  (at level 61, c at next level, right associativity).

(** ** The commentary request: [fetchAIAnalysis] *)

Record AnalysisInput : Type := {
  btcPrice : Js.num;
  btcChange : Js.num;
  goldPrice : Js.num;
  goldChange : Js.num;
  fundingRate : Js.num;
  btcVolatility : list HighLowData;
  goldVolatility : list HighLowData
}.

(** The argument of [ai.models.generateContent]. *)
Record GenerateContentParameters : Type := {
  model : string;
  contents : string
}.

(** The text-generation SDK: the constructor of [GoogleGenAI], which gets
    the [apiKey] option ([None] for [undefined]) and may throw, and
    [ai.models.generateContent], which may throw and whose response has a
    [text] that may be [undefined]. *)
Record GenAI : Type := {
  client : Type;
  GoogleGenAI : option string -> Eff.completion client;
  generateContent :
    client -> GenerateContentParameters -> Eff.completion (option string)
}.

Definition notConfiguredMessage : string :=
  "API Key not configured in environment.".

Definition retryLaterMessage : string :=
  "Hệ thống AI đang bận hoặc gặp sự cố kết nối. Vui lòng thử lại sau.".

Section Analysis.

(** [`${x}`] and [x.toFixed(2)] on a number *)
Variable numToString : Js.num -> string.
Variable toFixed2 : Js.num -> string.
Variable sdk : GenAI.

(** Helper to format volatility for prompt *)
Definition formatVol (data : list HighLowData) : string :=
  Js.join (String "010" "")
    (map (fun d =>
            "- " ++ timeframe d ++ ": Range " ++ toFixed2 (rangePercent d)
            ++ "% (High: $" ++ numToString (high d)
            ++ ", Low: $" ++ numToString (low d) ++ ")")
         data).

(** [`${v.find(d => d.timeframe.includes('24'))?.rangePercent.toFixed(2)}`] *)
Definition range24H (v : list HighLowData) : string :=
  match Js.find (fun d => Js.includes (timeframe d) "24") v with
  | Some d => toFixed2 (rangePercent d)
  | None => "undefined"
  end.

Definition promptBtc (marketData : AnalysisInput) : string :=
  "
        Đóng vai một **Chuyên gia Giao dịch Bitcoin (Crypto Trader Pro)**.
        Hãy phân tích kỹ thuật sâu (Deep Dive) cho BTC/USDT dựa trên dữ liệu đa khung thời gian sau:
        
        1. **Dữ liệu Giá**: $"
  ++ (numToString (btcPrice marketData))
  ++ " (24h: "
  ++ (numToString (btcChange marketData))
  ++ "%)
        2. **Tâm lý & Đòn bẩy**: Funding Rate "
  ++ (numToString (fundingRate marketData))
  ++ "% (Dương cao = Long đông/FOMO, Âm = Short đông).
        3. **Biến động giá (Volatility Structure)**:
        "
  ++ (formatVol (btcVolatility marketData))
  ++ "

        **Yêu cầu phân tích:**
        1. **Cấu trúc thị trường**: Phân tích hành động giá dựa trên High/Low của khung 4H và 24H. Phe nào đang kiểm soát?
        2. **Vùng thanh khoản**: Xác định hỗ trợ/kháng cự quan trọng.
        3. **TÍN HIỆU GIAO DỊCH (SIGNAL)**: Bắt buộc đưa ra kết luận rõ ràng:
           - 🟢 **MUA (BUY/LONG)**: Entry vùng nào?
           - 🔴 **BÁN (SELL/SHORT)**: Entry vùng nào?
           - 🟡 **CHỜ (WAIT)**: Nếu thị trường sideway.

        Trả lời ngắn gọn, format Markdown, dùng icon. Tập trung vào tín hiệu.
      ".

Definition promptGold (marketData : AnalysisInput) : string :=
  "
        Đóng vai một **Chuyên gia Giao dịch Vàng & Hàng hóa (Commodities Trader)**.
        Hãy phân tích kỹ thuật sâu cho Vàng (XAU/USD - PAXG) dựa trên dữ liệu thực tế:

        1. **Dữ liệu Giá**: $"
  ++ (numToString (goldPrice marketData))
  ++ " (24h: "
  ++ (numToString (goldChange marketData))
  ++ "%)
        2. **Biến động giá (Volatility Structure)**:
        "
  ++ (formatVol (goldVolatility marketData))
  ++ "

        **Yêu cầu phân tích:**
        1. **Xu hướng chủ đạo**: Đánh giá trend dựa trên biên độ dao động (Range) 4H và 24H.
        2. **Tâm lý thị trường**: Dòng tiền đang trú ẩn hay chốt lời?
        3. **TÍN HIỆU GIAO DỊCH (SIGNAL)**: Bắt buộc đưa ra kết luận:
           - 🟢 **LONG (MUA)**
           - 🔴 **SHORT (BÁN)**
           - 🟡 **QUAN SÁT (Neutral)**

        Trả lời ngắn gọn, format Markdown, dùng icon.
      ".

Definition promptCombined (marketData : AnalysisInput) : string :=
  "
        Đóng vai một **Chuyên gia Chiến lược Vĩ mô (Macro Strategist)**.
        Phân tích tương quan liên thị trường giữa Bitcoin và Vàng:

        - **BTC**: $"
  ++ (numToString (btcPrice marketData))
  ++ " ("
  ++ (numToString (btcChange marketData))
  ++ "%)
        - **Gold**: $"
  ++ (numToString (goldPrice marketData))
  ++ " ("
  ++ (numToString (goldChange marketData))
  ++ "%)
        
        - **Biến động BTC**: Range 24H là "
  ++ (range24H (btcVolatility marketData))
  ++ "%
        - **Biến động Gold**: Range 24H là "
  ++ (range24H (goldVolatility marketData))
  ++ "%

        **Yêu cầu:**
        1. **Tương quan (Correlation)**: Hai tài sản đang đi cùng chiều (Risk-on/Risk-off) hay ngược chiều (Trú ẩn)?
        2. **Dòng tiền thông minh**: Tiền đang chảy vào đâu mạnh hơn dựa trên % thay đổi và biến động?
        3. **Khuyến nghị phân bổ**: Tỷ trọng nắm giữ cho ngắn hạn (Ví dụ: 70% BTC / 30% Gold).

        Trả lời ngắn gọn, xúc tích, format Markdown.
      ".

Definition buildPrompt (marketData : AnalysisInput) (mode : string) : string :=
  if String.eqb mode "btc" then promptBtc marketData
  else if String.eqb mode "gold" then promptGold marketData
  else (* Combined / Overlay *) promptCombined marketData.

(** The statements both copies share, from the construction of the client
    to [return response.text]. *)
Definition requestAnalysis (apiKey : option string)
    (marketData : AnalysisInput) (mode : string)
  : Eff.M GenerateContentParameters (option string) :=
  ai <- Eff.lift (GoogleGenAI sdk apiKey) ;;
  let prompt := buildPrompt marketData mode in
  let request := {| model := "gemini-2.5-flash"; contents := prompt |} in
  text <- Eff.call request (generateContent sdk ai request) ;;
  Eff.ret text.

End Analysis.

(** [services/marketService.ts]: the key is read from [process.env] and
    handed to the SDK as it is. *)
Module MarketService.

Definition fetchAIAnalysis (numToString toFixed2 : Js.num -> string)
    (sdk : GenAI) (API_KEY : option string)
    (marketData : AnalysisInput) (mode : string)
  : Eff.M GenerateContentParameters (option string) :=
  Eff.tryCatch
    (requestAnalysis numToString toFixed2 sdk API_KEY marketData mode)
    (fun error => Eff.ret (Some retryLaterMessage)).

End MarketService.

(** The merged single-file application: the key is read from
    [window.process?.env?.API_KEY] and checked first. *)
Module Merged.

Definition fetchAIAnalysis (numToString toFixed2 : Js.num -> string)
    (sdk : GenAI) (API_KEY : option string)
    (marketData : AnalysisInput) (mode : string)
  : Eff.M GenerateContentParameters (option string) :=
  Eff.tryCatch
    (let apiKey := API_KEY in
     if Js.str_falsy apiKey then Eff.ret (Some notConfiguredMessage)
     else requestAnalysis numToString toFixed2 sdk apiKey marketData mode)
    (fun error => Eff.ret (Some retryLaterMessage)).

End Merged.

(** ** Funding rates: [fetchFundingRates] *)

Definition BINANCE_F_API : string := "https://fapi.binance.com/fapi/v1".

(** The JSON object of [/premiumIndex], by the field the program reads. *)
Record premium_json : Type := {
  lastFundingRate : Js.value
}.

Record FundingRate : Type := {
  exchange : string;
  rate : Js.num
}.

#[local] Set Warnings "-inexact-float".

Section Funding.

Variable parseFloat : Js.value -> Js.num.
Variable fetch : string -> fetch_outcome premium_json.
(** The value [Math.random()] returns at this call. *)
Variable random : Js.num.

Definition fetchFundingRates : list FundingRate :=
  let binanceData :=
    safeFetch fetch (BINANCE_F_API ++ "/premiumIndex?symbol=BTCUSDT") in
  (* Bybit simulation remains as fallback *)
  let bybitRate :=
    PrimFloat.add 0.01%float (PrimFloat.mul random 0.005%float) in
  [ {| exchange := "Binance";
       rate := match binanceData with
               | Some binanceData => parseFloat (lastFundingRate binanceData)
               | None => 0.0100%float
               end |};
    {| exchange := "Bybit"; rate := bybitRate |} ].

End Funding.

(** ** The chart component: axes and series per display mode

    The decisions of [MarketChart] that depend on [chartMode]: which axes
    and which [Area] series are rendered, and with which colours, once the
    chart is rendered at all (while the first load runs, with no data yet,
    a spinner stands in its place). *)

Module MarketChart.

Record YAxis : Type := {
  yAxisId : string;
  stroke : string
}.

Record Area : Type := {
  areaAxisId : string;
  dataKey : string;
  areaStroke : string
}.

Definition showRightAxis (chartMode : string) : bool :=
  String.eqb chartMode "combined".

Definition leftAxisColor (chartMode : string) : string :=
  if String.eqb chartMode "gold" then "#ffd700" else "#4ecdc4".

(** The [YAxis] elements, in order of appearance. *)
Definition axes (chartMode : string) : list YAxis :=
  ({| yAxisId := "left"; stroke := leftAxisColor chartMode |}
   :: (if showRightAxis chartMode
       then [ {| yAxisId := "right"; stroke := "#ffd700" |} ]
       else []))%list.

(** The [Area] elements, in order of appearance. *)
Definition areas (chartMode : string) : list Area :=
  ((if String.eqb chartMode "combined" || String.eqb chartMode "btc"
    then [ {| areaAxisId := "left"; dataKey := "btc";
              areaStroke := "#4ecdc4" |} ]
    else [])
   ++
   (if String.eqb chartMode "combined" || String.eqb chartMode "gold"
    then [ {| areaAxisId :=
                if String.eqb chartMode "combined" then "right" else "left";
              dataKey := "xau"; areaStroke := "#ffd700" |} ]
    else []))%list.

End MarketChart.

(** ** The analysis panel: [handleAnalyze] *)

(** The two state variables of [AIAnalysisPanel]. *)
Record PanelState : Type := {
  analysis : string;
  isAnalyzing : bool
}.

Definition setAnalysis (text : string) (st : PanelState) : PanelState :=
  {| analysis := text; isAnalyzing := isAnalyzing st |}.

Definition setIsAnalyzing (b : bool) (st : PanelState) : PanelState :=
  {| analysis := analysis st; isAnalyzing := b |}.

(** [result || fallback] for a result that is a string or [undefined] *)
Definition orElse (result : option string) (fallback : string) : string :=
  match result with
  | Some s => if String.eqb s "" then fallback else s
  | None => fallback
  end.

Definition noResponseMessage : string := "Không có phản hồi từ AI.".

Definition connectionErrorMessage : string :=
  "Lỗi khi kết nối với chuyên gia AI.".

Definition keyWarningMessage : string :=
  "⚠️ Lỗi: Chưa cấu hình API Key cho AI Analyst.".

Section Panels.

Variables numToString toFixed2 : Js.num -> string.
Variable sdk : GenAI.
(** [process.env.API_KEY], read by the panel and by [fetchAIAnalysis] *)
Variable API_KEY : option string.
(** The props: the market figures and [chartMode] *)
Variable marketData : AnalysisInput.
Variable chartMode : string.

(** The statements of [handleAnalyze] from [setIsAnalyzing(true)] on, which
    the two panels share, over the [fetchAIAnalysis] of their file.  The
    handler of [catch] cannot throw, so [finally] is the last step on both
    paths. *)
Definition analyzeWith
    (fetchAIAnalysis : Eff.M GenerateContentParameters (option string))
    (st : PanelState) : Eff.M GenerateContentParameters PanelState :=
  let st := setIsAnalyzing true st in
  let st := setAnalysis "" st in
  st <- Eff.tryCatch
          (result <- fetchAIAnalysis ;;
           Eff.ret (setAnalysis (orElse result noResponseMessage) st))
          (fun e => Eff.ret (setAnalysis connectionErrorMessage st)) ;;
  Eff.ret (setIsAnalyzing false st).

(** [components/AIAnalysisPanel.tsx]: the key is checked before anything
    else. *)
Definition handleAnalyze (st : PanelState)
  : Eff.M GenerateContentParameters PanelState :=
  if Js.str_falsy API_KEY then Eff.ret (setAnalysis keyWarningMessage st)
  else
    analyzeWith
      (MarketService.fetchAIAnalysis numToString toFixed2 sdk API_KEY
         marketData chartMode)
      st.

(** The panel of the merged application. *)
Definition handleAnalyzeMerged (st : PanelState)
  : Eff.M GenerateContentParameters PanelState :=
  analyzeWith
    (Merged.fetchAIAnalysis numToString toFixed2 sdk API_KEY marketData
       chartMode)
    st.

End Panels.

(** ** The entry point: the [process] of a browser *)

(** The global [process], by the one variable the program reads; the global
    itself is [None] when it is not defined. *)
Record Process : Type := {
  env_API_KEY : option string
}.

(** [if (typeof process === 'undefined') window.process = {env: {API_KEY: ''}}] *)
Definition installProcess (process : option Process) : Process :=
  match process with
  | None => {| env_API_KEY := Some "" |}
  | Some process => process
  end.

(** ** The dashboard: [loadAllData] *)

(** The three endpoints of the market-data provider. *)
Record Network : Type := {
  tickerApi : string -> fetch_outcome ticker_json;
  klinesApi : string -> fetch_outcome (list kline);
  premiumApi : string -> fetch_outcome premium_json
}.

(** [fundingData[0]?.rate * 100 || 0], the [fundingRate] prop of the
    analysis panel. *)
Definition fundingRateProp (fundingData : list FundingRate) : Js.num :=
  let x :=
    match nth_error fundingData 0 with
    | Some f => PrimFloat.mul (rate f) 100%float
    | None => PrimFloat.nan (* undefined * 100 *)
    end in
  if Js.num_falsy x then 0%float else x.

(** The state variables of [App] in the merged application. *)
Record Dashboard : Type := {
  btcData : ticker;
  goldData : ticker;
  chartData : list ChartDataPoint;
  fundingData : list FundingRate;
  btcHighLow : list HighLowData;
  goldHighLow : list HighLowData;
  timeFrame : string;
  chartMode : string;
  loading : bool;
  lastUpdated : string
}.

Definition setLoading (b : bool) (st : Dashboard) : Dashboard :=
  {| btcData := btcData st; goldData := goldData st;
     chartData := chartData st; fundingData := fundingData st;
     btcHighLow := btcHighLow st; goldHighLow := goldHighLow st;
     timeFrame := timeFrame st; chartMode := chartMode st;
     loading := b; lastUpdated := lastUpdated st |}.

(** The initial values of the [useState] calls. *)
Definition initialDashboard : Dashboard :=
  {| btcData := {| price := 0%float; changePercent := 0%float;
                   change24h := None |};
     goldData := {| price := 0%float; changePercent := 0%float;
                    change24h := None |};
     chartData := []; fundingData := [];
     btcHighLow := []; goldHighLow := [];
     timeFrame := TimeFrame.H1; chartMode := "combined";
     loading := true; lastUpdated := "" |}.

Section Load.

Variable parseFloat : Js.value -> Js.num.
Variable net : Network.
Variable random : Js.num.
Variables toLocaleDateString toLocaleTimeString : Js.value -> string.
(** [new Date().toLocaleTimeString()] at the end of the load *)
Variable now : string.

(** [loadAllData] of the merged application.  None of the six fetchers can
    reject, so the [try] block runs to its end. *)
Definition loadAllData (st : Dashboard) : Dashboard :=
  let st := setLoading true st in
  let btc := fetchBTCPrice parseFloat (tickerApi net) in
  let gold := fetchGoldPrice parseFloat (tickerApi net) in
  let funding := fetchFundingRates parseFloat (premiumApi net) random in
  let btcHL := fetchHighLow parseFloat (klinesApi net) (Some "BTCUSDT") in
  let goldHL := fetchHighLow parseFloat (klinesApi net) (Some "PAXGUSDT") in
  let chart :=
    fetchChartData parseFloat (klinesApi net) toLocaleDateString
      toLocaleTimeString (timeFrame st) in
  let st :=
    {| btcData := btc; goldData := gold; chartData := chart;
       fundingData := funding; btcHighLow := btcHL; goldHighLow := goldHL;
       timeFrame := timeFrame st; chartMode := chartMode st;
       loading := loading st; lastUpdated := now |} in
  setLoading false st.

End Load.

(** ** Answers of any shape: [safeFetch] and [fetchHighLow] on raw JSON

    The definitions above read an answer through the schema of its
    endpoint.  The program itself takes whatever [res.json()] gives: this
    module embeds [safeFetch] and [fetchHighLow] over arbitrary JSON values,
    with the [TypeError] that reading a property of [null] or [undefined]
    throws, and with [Promise.all] rejecting when one callback does.  On
    answers of the schema the two embeddings agree
    ([fetchHighLow_refines]). *)

#[local] Set Warnings "-register-all".

Module Raw.

Inductive value : Type :=
| Undefined
| Null
| Bool (b : bool)
| Num (x : Js.num)
| Str (s : string)
| Arr (items : list value)
| Obj (fields : list (string * value)).

(** [!!v] *)
Definition truthy (v : value) : bool :=
  match v with
  | Undefined | Null => false
  | Bool b => b
  | Num x => negb (Js.num_falsy x)
  | Str s => negb (String.eqb s "")
  | Arr _ | Obj _ => true
  end.

Definition TypeError : string := "TypeError".

(** The property reads of the program on a value that is neither an array
    nor [null] nor [undefined] (a string, a number, a boolean, an object):
    they are the host's and they do not throw. *)
Record Host : Type := {
  (** [v.length] *)
  lengthOf : value -> value;
  (** [v[v.length - 1]] *)
  lastOf : value -> value;
  (** [v[i]] *)
  at_ : value -> nat -> value
}.

(** [safeFetch]: the parsed body of an [ok] answer, whatever it is, and
    [null] when the request rejects, the answer is not [ok] or its body does
    not parse. *)
Definition safeFetch (fetch : string -> fetch_outcome value) (url : string)
  : value :=
  match fetch url with
  | NetworkError => Null
  | Response ok _ body =>
      if ok then match body with Some data => data | None => Null end
      else Null
  end.

(** [Promise.all]: the results in the order of the array, or a rejection
    when a promise rejects.  Of several rejections the one that comes first
    in time is reported; the model reports the first of the array. *)
Fixpoint all {A : Type} (promises : list (Eff.completion A))
  : Eff.completion (list A) :=
  match promises with
  | [] => Eff.Returned []
  | p :: rest =>
      match p with
      | Eff.Thrown e => Eff.Thrown e
      | Eff.Returned a =>
          match all rest with
          | Eff.Thrown e => Eff.Thrown e
          | Eff.Returned results => Eff.Returned (a :: results)
          end
      end
  end.

Section HighLow.

Variable host : Host.
Variable parseFloat : value -> Js.num.
Variable fetch : string -> fetch_outcome value.

(** [data.length === 0], for a truthy [data] *)
Definition lengthIsZero (data : value) : bool :=
  match data with
  | Arr items => Nat.eqb (List.length items) 0
  | _ =>
      match lengthOf host data with
      | Num x => Js.isZero x
      | _ => false
      end
  end.

(** [data[data.length - 1]], for a truthy [data] *)
Definition last (data : value) : value :=
  match data with
  | Arr items => nth (List.length items - 1) items Undefined
  | _ => lastOf host data
  end.

(** [candle[i]] *)
Definition index (candle : value) (i : nat) : Eff.completion value :=
  match candle with
  | Undefined | Null => Eff.Thrown TypeError
  | Arr items => Eff.Returned (nth i items Undefined)
  | _ => Eff.Returned (at_ host candle i)
  end.

(** The body of the [definitions.map] callback. *)
Definition highLowOf (symbol : string) (def : definition)
  : Eff.completion HighLowData :=
  let data :=
    safeFetch fetch (klinesUrl symbol (interval def) (limit def)) in
  if negb (truthy data) || lengthIsZero data then
    Eff.Returned
      {| timeframe := label def; high := 0%float; low := 0%float;
         rangePercent := 0%float |}
  else
    let candle := last data in
    match index candle 2 with
    | Eff.Thrown e => Eff.Thrown e
    | Eff.Returned high =>
        let high := parseFloat high in
        match index candle 3 with
        | Eff.Thrown e => Eff.Thrown e
        | Eff.Returned low =>
            let low := parseFloat low in
            let range := range high low in
            Eff.Returned
              {| timeframe := label def; high := high; low := low;
                 rangePercent := range |}
        end
    end.

Definition fetchHighLow (symbol : option string)
  : Eff.completion (list HighLowData) :=
  let symbol := symbolOrDefault symbol in
  all (map (highLowOf symbol) definitions).

End HighLow.


(** The values of the schema among the raw ones. *)
Definition embed (v : Js.value) : value :=
  match v with
  | Js.Undefined => Undefined
  | Js.Null => Null
  | Js.Bool b => Bool b
  | Js.Num x => Num x
  | Js.Str s => Str s
  end.

Definition embedRow (k : kline) : value := Arr (map embed k).

Definition embedSeries (rows : list kline) : value := Arr (map embedRow rows).

Definition embedFetch (fetch : string -> fetch_outcome (list kline))
    (url : string) : fetch_outcome value :=
  match fetch url with
  | NetworkError => NetworkError
  | Response ok status body => Response ok status (option_map embedSeries body)
  end.

End Raw.

(** ** Sample data

    The scenario of the design note: series A = [(t0,100), (t1,110)] and
    series B = [(t0,50)]; and a few rows and networks used to run the
    fetchers.  [parseFloat] applied to a number returns it. *)

Definition sampleParseFloat (v : Js.value) : Js.num :=
  match v with
  | Js.Num x => x
  | _ => PrimFloat.nan
  end.

Definition row (t : Js.num) (high low close : Js.num) : kline :=
  [Js.Num t; Js.Str "open"; Js.Num high; Js.Num low; Js.Num close].

Definition seriesA : list kline :=
  [row 1000%float 101%float 99%float 100%float;
   row 2000%float 111%float 109%float 110%float].

Definition seriesB : list kline :=
  [row 1000%float 51%float 49%float 50%float].

(** A gold series whose only row has a close of zero. *)
Definition seriesZero : list kline :=
  [row 1000%float 51%float 0%float 0%float].

(** A network that answers a BTC query with [a], any other with [b]. *)
Definition sampleFetch (a b : fetch_outcome (list kline)) (url : string)
  : fetch_outcome (list kline) :=
  if Js.includes url "BTCUSDT" then a else b.

Definition sampleLabel (t : Js.value) : string := "label".

(** A network on which only the one-day bucket gets no answer. *)
Definition dayDown (url : string) : fetch_outcome (list kline) :=
  if Js.includes url "interval=1d" then NetworkError
  else Response true 200 (Some seriesA).

(** An SDK in the manner of the browser build: the constructor throws when
    no key is given, and the service rejects a request made with an empty
    key and answers [reply] otherwise. *)
Definition browserSdk (reply : string) : GenAI :=
  {| client := string;
     GoogleGenAI := fun apiKey =>
       match apiKey with
       | None =>
           Eff.Thrown "An API Key must be set when running in a browser"
       | Some k => Eff.Returned k
       end;
     generateContent := fun ai request =>
       if String.eqb ai "" then Eff.Thrown "API key not valid"
       else Eff.Returned (Some reply) |}.

(** An SDK whose service is unreachable. *)
Definition downSdk : GenAI :=
  {| client := option string;
     GoogleGenAI := fun apiKey => Eff.Returned apiKey;
     generateContent := fun ai request => Eff.Thrown "fetch failed" |}.

Definition sampleNumToString (x : Js.num) : string := "n".

Definition sampleInput : AnalysisInput :=
  {| btcPrice := 95000%float; btcChange := 1%float;
     goldPrice := 2650%float; goldChange := 0%float;
     fundingRate := 0.5%float;
     btcVolatility :=
       [ {| timeframe := "24 Giờ"; high := 111%float; low := 109%float;
            rangePercent := range 111%float 109%float |} ];
     goldVolatility := [] |}.

(** A gold series with a row for the first timestamp only, closing at 50,
    and one row more for a time that series A does not have. *)
Definition seriesGaps : list kline :=
  [row 1000%float 51%float 49%float 50%float;
   row 1500%float 52%float 50%float 51%float].

(** A candle row whose low does not parse. *)
Definition rowBadLow : kline :=
  [Js.Num 1000%float; Js.Str "open"; Js.Num 101%float; Js.Str "n/a";
   Js.Num 100%float].

(** A provider of which no endpoint answers. *)
Definition allDown : Network :=
  {| tickerApi := fun _ => NetworkError;
     klinesApi := fun _ => Response false 503 None;
     premiumApi := fun _ => Response true 200 None |}.

Definition samplePanel : PanelState :=
  {| analysis := "earlier text"; isAnalyzing := false |}.

(** A host whose property reads all miss, and a [parseFloat] that returns a
    number as it is. *)
Definition sampleHost : Raw.Host :=
  {| Raw.lengthOf := fun _ => Raw.Undefined;
     Raw.lastOf := fun _ => Raw.Undefined;
     Raw.at_ := fun _ _ => Raw.Undefined |}.

Definition rawParseFloat (v : Raw.value) : Js.num :=
  match v with
  | Raw.Num x => x
  | _ => PrimFloat.nan
  end.



(** ** Canonical keys

    SameValueZero is equality of canonical keys: a number is represented by
    its IEEE 754 datum with the two zeros identified. *)

Definition norm (f : spec_float) : spec_float :=
  match f with
  | S754_zero _ => S754_zero false
  | _ => f
  end.

Inductive key : Type :=
| KUndefined
| KNull
| KBool (b : bool)
| KNum (f : spec_float)
| KStr (s : string).

Definition keyOf (v : Js.value) : key :=
  match v with
  | Js.Undefined => KUndefined
  | Js.Null => KNull
  | Js.Bool b => KBool b
  | Js.Num x => KNum (norm (Prim2SF x))
  | Js.Str s => KStr s
  end.

(** * Properties *)

(** ** Numbers and keys *)

(** A number that compares equal to [0] is not greater than [0]. *)
Lemma isZero_not_gt (x : Js.num) :
  Js.isZero x = true -> Js.gt x 0%float = false.
Proof.
  unfold Js.isZero, Js.gt.
  rewrite eqb_spec, ltb_spec.
  change (Prim2SF 0%float) with (S754_zero false).
  destruct (Prim2SF x) as [s | s | | s m e]; try destruct s; cbv; congruence.
Qed.

Lemma SFeqb_true_iff (a b : spec_float) :
  SFeqb a b = true <->
  a <> S754_nan /\ b <> S754_nan /\ norm a = norm b.
Proof.
  unfold SFeqb.
  destruct a as [s1 | s1 | | s1 m1 e1], b as [s2 | s2 | | s2 m2 e2];
    try destruct s1; try destruct s2; cbn;
    try (split; [discriminate | intros (? & ? & ?); congruence]);
    try (split; [intros _; repeat split; congruence | reflexivity]).
  - (* both negative *)
    change (PosDef.Pos.compare_cont Eq m1 m2) with (Pos.compare m1 m2).
    destruct (Z.compare_spec e1 e2) as [-> | Hlt | Hgt];
      [destruct (Pos.compare_spec m1 m2) as [-> | Hm | Hm] | | ]; cbn;
      try (split; [intros _; repeat split; congruence | reflexivity]);
      (split; [discriminate | intros (_ & _ & Heq); inversion Heq; subst; lia]).
  - (* both positive *)
    change (PosDef.Pos.compare_cont Eq m1 m2) with (Pos.compare m1 m2).
    destruct (Z.compare_spec e1 e2) as [-> | Hlt | Hgt];
      [destruct (Pos.compare_spec m1 m2) as [-> | Hm | Hm] | | ]; cbn;
      try (split; [intros _; repeat split; congruence | reflexivity]);
      (split; [discriminate | intros (_ & _ & Heq); inversion Heq; subst; lia]).
Qed.

Lemma isNaN_iff (x : Js.num) : Js.isNaN x = true <-> Prim2SF x = S754_nan.
Proof.
  unfold Js.isNaN. rewrite eqb_spec, negb_true_iff.
  destruct (SFeqb (Prim2SF x) (Prim2SF x)) eqn:E.
  - apply SFeqb_true_iff in E. destruct E as (Hx & _). split; congruence.
  - split; [intros _ | reflexivity].
    destruct (Prim2SF x) as [s | s | | s m e] eqn:P; [ | | reflexivity | ];
      exfalso;
      assert (SFeqb (Prim2SF x) (Prim2SF x) = true) as E'
        by (apply SFeqb_true_iff; rewrite P; repeat split; discriminate);
      rewrite P in E'; congruence.
Qed.

Lemma norm_nan (f : spec_float) : norm f = S754_nan <-> f = S754_nan.
Proof. destruct f; cbn; split; congruence. Qed.

Lemma sameValueZero_iff (a b : Js.value) :
  Js.sameValueZero a b = true <-> keyOf a = keyOf b.
Proof.
  destruct a as [ | | x | x | s], b as [ | | y | y | t]; cbn;
    try (split; [discriminate | discriminate]);
    try (split; reflexivity).
  - rewrite Bool.eqb_true_iff. split; congruence.
  - rewrite orb_true_iff, andb_true_iff, eqb_spec, SFeqb_true_iff, !isNaN_iff.
    split.
    + intros [(_ & _ & Hn) | (Hx & Hy)]; [now rewrite Hn | now rewrite Hx, Hy].
    + intros [= Hn].
      destruct (Prim2SF x) as [sx | sx | | sx mx ex] eqn:Px;
        destruct (Prim2SF y) as [sy | sy | | sy my ey] eqn:Py;
        cbn in Hn; try discriminate;
        try (right; split; reflexivity);
        left; repeat split; try discriminate; cbn; congruence.
  - rewrite String.eqb_eq. split; congruence.
Qed.

Lemma sameValueZero_false_iff (a b : Js.value) :
  Js.sameValueZero a b = false <-> keyOf a <> keyOf b.
Proof.
  rewrite <- sameValueZero_iff. destruct (Js.sameValueZero a b); split;
    congruence.
Qed.

(** ** The map of gold closes *)

Lemma Map_get_set_same {V : Type} (m : Js.Map V) (k k' : Js.value) (v : V) :
  Js.sameValueZero k k' = true ->
  Js.Map_get (Js.Map_set m k v) k' = Some v.
Proof.
  intros Hk. apply sameValueZero_iff in Hk.
  induction m as [ | [k1 v1] m IH]; cbn.
  - apply sameValueZero_iff in Hk. now rewrite Hk.
  - destruct (Js.sameValueZero k1 k) eqn:E1; cbn.
    + apply sameValueZero_iff in E1.
      assert (Js.sameValueZero k1 k' = true) as ->
        by (apply sameValueZero_iff; congruence).
      reflexivity.
    + apply sameValueZero_false_iff in E1.
      assert (Js.sameValueZero k1 k' = false) as ->
        by (apply sameValueZero_false_iff; congruence).
      exact IH.
Qed.

Lemma Map_get_set_other {V : Type} (m : Js.Map V) (k k' : Js.value) (v : V) :
  Js.sameValueZero k k' = false ->
  Js.Map_get (Js.Map_set m k v) k' = Js.Map_get m k'.
Proof.
  intros Hk. apply sameValueZero_false_iff in Hk.
  induction m as [ | [k1 v1] m IH]; cbn.
  - apply sameValueZero_false_iff in Hk. now rewrite Hk.
  - destruct (Js.sameValueZero k1 k) eqn:E1; cbn.
    + apply sameValueZero_iff in E1.
      assert (Js.sameValueZero k1 k' = false) as ->
        by (apply sameValueZero_false_iff; congruence).
      reflexivity.
    + destruct (Js.sameValueZero k1 k'); [reflexivity | exact IH].
Qed.

Section GoldMap.

Variable parseFloat : Js.value -> Js.num.

(** Rows with other timestamps leave the entry of a timestamp alone. *)
Lemma fold_set_other (post : list kline) (m : Js.Map Js.num) (t : Js.value) :
  (forall g, In g post -> Js.sameValueZero (Js.index g 0) t = false) ->
  Js.Map_get (fold_left (goldMapStep parseFloat) post m) t = Js.Map_get m t.
Proof.
  revert m. induction post as [ | g post IH]; intros m Hpost; cbn.
  - reflexivity.
  - rewrite IH by (intros g' Hg'; apply Hpost; now right).
    unfold goldMapStep. apply Map_get_set_other. apply Hpost. now left.
Qed.

(** The map holds, for a timestamp, the close of the last row with it. *)
Lemma goldMapOf_last (pre post : list kline) (g : kline) (t : Js.value) :
  Js.sameValueZero (Js.index g 0) t = true ->
  (forall g', In g' post -> Js.sameValueZero (Js.index g' 0) t = false) ->
  Js.Map_get (goldMapOf parseFloat (Some (pre ++ g :: post)%list)) t
  = Some (parseFloat (Js.index g 4)).
Proof.
  intros Hg Hpost. unfold goldMapOf.
  rewrite fold_left_app. cbn [fold_left].
  rewrite fold_set_other by exact Hpost.
  unfold goldMapStep. now apply Map_get_set_same.
Qed.

(** A timestamp no row has is absent from the map. *)
Lemma goldMapOf_absent (gold : list kline) (t : Js.value) :
  (forall g, In g gold -> Js.sameValueZero (Js.index g 0) t = false) ->
  Js.Map_get (goldMapOf parseFloat (Some gold)) t = None.
Proof.
  intros Hgold. unfold goldMapOf. now rewrite fold_set_other.
Qed.

End GoldMap.

(** ** The chart series *)

Section ChartFacts.

Variable parseFloat : Js.value -> Js.num.
Variables toLocaleDateString toLocaleTimeString : Js.value -> string.

Lemma mergeKlines_primary (timeFrame : string) (btc : list kline)
    (goldKlines : option (list kline)) :
  btc <> [] ->
  mergeKlines parseFloat toLocaleDateString toLocaleTimeString timeFrame
    (Some btc) goldKlines
  = map (chartPoint parseFloat toLocaleDateString toLocaleTimeString
           timeFrame btc (goldMapOf parseFloat goldKlines)) btc.
Proof.
  intros Hbtc. unfold mergeKlines.
  destruct btc as [ | k btc]; [congruence | reflexivity].
Qed.

Lemma mergeKlines_secondary (timeFrame : string)
    (btcKlines : option (list kline)) (gold : list kline) :
  btcKlines = None \/ btcKlines = Some [] ->
  mergeKlines parseFloat toLocaleDateString toLocaleTimeString timeFrame
    btcKlines (Some gold)
  = map (chartPoint parseFloat toLocaleDateString toLocaleTimeString
           timeFrame [] (goldMapOf parseFloat (Some gold))) gold.
Proof.
  intros [-> | ->]; reflexivity.
Qed.

(** Every merged point comes from a row of one of the two series through
    [chartPoint], with the map built from the gold series. *)
Lemma mergeKlines_In (timeFrame : string)
    (btcKlines goldKlines : option (list kline)) (p : ChartDataPoint) :
  In p (mergeKlines parseFloat toLocaleDateString toLocaleTimeString
          timeFrame btcKlines goldKlines) ->
  exists btcData k,
    p = chartPoint parseFloat toLocaleDateString toLocaleTimeString
          timeFrame btcData (goldMapOf parseFloat goldKlines) k.
Proof.
  unfold mergeKlines.
  destruct btcKlines as [btc | ], goldKlines as [gold | ]; cbn - [chartPoint];
    try contradiction;
    intros Hin; apply in_map_iff in Hin; destruct Hin as (k & <- & _);
    eauto.
Qed.

End ChartFacts.

(** [fetchChartData] merges the two series requested with the interval and
    count of its time frame. *)
Lemma fetchChartData_unfold
    (parseFloat : Js.value -> Js.num)
    (fetch : string -> fetch_outcome (list kline))
    (toLocaleDateString toLocaleTimeString : Js.value -> string)
    (timeFrame : string) :
  fetchChartData parseFloat fetch toLocaleDateString toLocaleTimeString
    timeFrame
  = mergeKlines parseFloat toLocaleDateString toLocaleTimeString timeFrame
      (safeFetch fetch
         (klinesUrl "BTCUSDT" (fst (candleParams timeFrame))
            (snd (candleParams timeFrame))))
      (safeFetch fetch
         (klinesUrl "PAXGUSDT" (fst (candleParams timeFrame))
            (snd (candleParams timeFrame)))).
Proof.
  unfold fetchChartData. now destruct (candleParams timeFrame).
Qed.

(** C1. The merged series is as long as the BTC series when that series is
    non-empty, whatever the gold series; and when the BTC series is empty
    (or its fetch failed) and the gold series is non-empty, it is as long as
    the gold series. *)
Theorem fetchChartData_length :
  forall (parseFloat : Js.value -> Js.num)
         (fetch : string -> fetch_outcome (list kline))
         (toLocaleDateString toLocaleTimeString : Js.value -> string)
         (timeFrame : string),
    let interval := fst (candleParams timeFrame) in
    let limit := snd (candleParams timeFrame) in
    let btcKlines := safeFetch fetch (klinesUrl "BTCUSDT" interval limit) in
    let goldKlines := safeFetch fetch (klinesUrl "PAXGUSDT" interval limit) in
    let out := fetchChartData parseFloat fetch toLocaleDateString
                 toLocaleTimeString timeFrame in
    (forall btc, btcKlines = Some btc -> btc <> [] ->
                 List.length out = List.length btc)
    /\
    (forall gold, btcKlines = None \/ btcKlines = Some [] ->
                  goldKlines = Some gold -> gold <> [] ->
                  List.length out = List.length gold).
Proof.
  intros parseFloat fetch dfmt tfmt timeFrame interval limit btcKlines
    goldKlines out.
  assert (out = mergeKlines parseFloat dfmt tfmt timeFrame btcKlines goldKlines)
    as Hout.
  { subst out btcKlines goldKlines interval limit.
    apply fetchChartData_unfold. }
  split.
  - intros btc Hbtc Hne. rewrite Hout, Hbtc.
    rewrite mergeKlines_primary by exact Hne. apply length_map.
  - intros gold Hbtc Hgold _. rewrite Hout, Hgold.
    rewrite mergeKlines_secondary by exact Hbtc. apply length_map.
Qed.

Lemma fetchChartData_length_witness :
  List.length
    (fetchChartData sampleParseFloat
       (sampleFetch (Response true 200 (Some seriesA))
                    (Response true 200 (Some seriesB)))
       sampleLabel sampleLabel TimeFrame.H1)
  = List.length seriesA
  /\
  List.length
    (fetchChartData sampleParseFloat
       (sampleFetch NetworkError (Response true 200 (Some seriesB)))
       sampleLabel sampleLabel TimeFrame.H1)
  = List.length seriesB.
Proof.
  split.
  - apply (proj1 (fetchChartData_length sampleParseFloat
                    (sampleFetch (Response true 200 (Some seriesA))
                                 (Response true 200 (Some seriesB)))
                    sampleLabel sampleLabel TimeFrame.H1)).
    + reflexivity.
    + discriminate.
  - apply (proj2 (fetchChartData_length sampleParseFloat
                    (sampleFetch NetworkError
                                 (Response true 200 (Some seriesB)))
                    sampleLabel sampleLabel TimeFrame.H1)).
    + left. reflexivity.
    + reflexivity.
    + discriminate.
Defined.

(** C8. The candle interval and count are a fixed table: H1 gives 60 candles
    of one minute, H4 gives 48 of five minutes, D1 gives 96 of fifteen
    minutes, D7 gives 84 of two hours, and any other value gives the default
    of 168 candles of one hour; the two series are requested with that
    pair. *)
Theorem candleParams_table :
  candleParams TimeFrame.H1 = ("1m", 60)
  /\ candleParams TimeFrame.H4 = ("5m", 48)
  /\ candleParams TimeFrame.D1 = ("15m", 96)
  /\ candleParams TimeFrame.D7 = ("2h", 84)
  /\ (forall timeFrame : string,
        timeFrame <> TimeFrame.H1 -> timeFrame <> TimeFrame.H4 ->
        timeFrame <> TimeFrame.D1 -> timeFrame <> TimeFrame.D7 ->
        candleParams timeFrame = ("1h", 168))
  /\ (forall parseFloat fetch toLocaleDateString toLocaleTimeString timeFrame,
        fetchChartData parseFloat fetch toLocaleDateString toLocaleTimeString
          timeFrame
        = mergeKlines parseFloat toLocaleDateString toLocaleTimeString
            timeFrame
            (safeFetch fetch
               (klinesUrl "BTCUSDT" (fst (candleParams timeFrame))
                  (snd (candleParams timeFrame))))
            (safeFetch fetch
               (klinesUrl "PAXGUSDT" (fst (candleParams timeFrame))
                  (snd (candleParams timeFrame))))).
Proof.
  repeat split; try reflexivity.
  - intros timeFrame H1 H4 D1 D7. unfold candleParams.
    apply String.eqb_neq in H1, H4, D1, D7.
    now rewrite H1, H4, D1, D7.
  - intros. apply fetchChartData_unfold.
Qed.

Lemma candleParams_table_witness : candleParams "1w" = ("1h", 168).
Proof.
  apply (proj1 (proj2 (proj2 (proj2 (proj2 candleParams_table))))).
  all: discriminate.
Defined.

(** C9. A BTC point whose timestamp has a matching gold row (the last row
    of the gold series with that timestamp, the one the map keeps) whose
    parsed close is falsy, that is [0], [-0] or [NaN], gets the constant
    2650 as its gold value: the fallback replaces a falsy matched value and
    not only a missing one. *)
Theorem falsy_gold_close_replaced :
  forall (parseFloat : Js.value -> Js.num)
         (fetch : string -> fetch_outcome (list kline))
         (toLocaleDateString toLocaleTimeString : Js.value -> string)
         (timeFrame : string)
         (btc pre post : list kline) (g k : kline) (i : nat),
    let interval := fst (candleParams timeFrame) in
    let limit := snd (candleParams timeFrame) in
    safeFetch fetch (klinesUrl "BTCUSDT" interval limit) = Some btc ->
    safeFetch fetch (klinesUrl "PAXGUSDT" interval limit)
    = Some (pre ++ g :: post)%list ->
    nth_error btc i = Some k ->
    Js.sameValueZero (Js.index g 0) (Js.index k 0) = true ->
    (forall g', In g' post ->
                Js.sameValueZero (Js.index g' 0) (Js.index k 0) = false) ->
    Js.num_falsy (parseFloat (Js.index g 4)) = true ->
    exists p,
      nth_error (fetchChartData parseFloat fetch toLocaleDateString
                   toLocaleTimeString timeFrame) i = Some p
      /\ timestamp p = Js.index k 0
      /\ xau p = 2650%float.
Proof.
  intros parseFloat fetch dfmt tfmt timeFrame btc pre post g k i interval
    limit Hbtc Hgold Hk Hmatch Hlast Hfalsy.
  assert (btc <> []) as Hne by (intros ->; destruct i; discriminate).
  rewrite fetchChartData_unfold. fold interval limit. rewrite Hbtc, Hgold.
  rewrite mergeKlines_primary by exact Hne.
  rewrite nth_error_map, Hk. cbn [option_map].
  eexists; split; [reflexivity | split; [reflexivity | ]].
  cbn [chartPoint xau].
  rewrite (goldMapOf_last parseFloat pre post g (Js.index k 0) Hmatch Hlast).
  now rewrite Hfalsy.
Qed.

Lemma falsy_gold_close_replaced_witness :
  exists p,
    nth_error
      (fetchChartData sampleParseFloat
         (sampleFetch (Response true 200 (Some seriesA))
                      (Response true 200 (Some seriesZero)))
         sampleLabel sampleLabel TimeFrame.D7) 0 = Some p
    /\ timestamp p = Js.Num 1000%float
    /\ xau p = 2650%float.
Proof.
  apply (falsy_gold_close_replaced sampleParseFloat
           (sampleFetch (Response true 200 (Some seriesA))
                        (Response true 200 (Some seriesZero)))
           sampleLabel sampleLabel TimeFrame.D7
           seriesA [] []
           (row 1000%float 51%float 0%float 0%float)
           (row 1000%float 101%float 99%float 100%float) 0).
  - reflexivity.
  - reflexivity.
  - reflexivity.
  - reflexivity.
  - intros g' [].
  - reflexivity.
Defined.

(** The end-to-end scenario of the design note: A = [(t0,100), (t1,110)] and
    B = [(t0,50)] merge to [(t0,100,50), (t1,110,2650)]. *)
Example merge_scenario :
  map (fun p => (timestamp p, btc p, xau p))
    (fetchChartData sampleParseFloat
       (sampleFetch (Response true 200 (Some seriesA))
                    (Response true 200 (Some seriesB)))
       sampleLabel sampleLabel TimeFrame.H4)
  = [ (Js.Num 1000%float, 100%float, 50%float);
      (Js.Num 2000%float, 110%float, 2650%float) ].
Proof. reflexivity. Qed.

(** A gold close that does not parse is [NaN], which is falsy too. *)
Example merge_nan_close :
  map (fun p => (timestamp p, btc p, xau p))
    (fetchChartData sampleParseFloat
       (sampleFetch
          (Response true 200 (Some seriesA))
          (Response true 200
             (Some [[Js.Num 2000%float; Js.Str "o"; Js.Str "h"; Js.Str "l";
                     Js.Str "n/a"]])))
       sampleLabel sampleLabel TimeFrame.D1)
  = [ (Js.Num 1000%float, 100%float, 2650%float);
      (Js.Num 2000%float, 110%float, 2650%float) ].
Proof. reflexivity. Qed.

(** The requests of a chart load. *)
Example klinesUrl_sample :
  klinesUrl "BTCUSDT" (fst (candleParams TimeFrame.D7))
    (snd (candleParams TimeFrame.D7))
  = "https://api.binance.com/api/v3/klines?symbol=BTCUSDT&interval=2h&limit=84".
Proof. reflexivity. Qed.

(** With the BTC feed down the gold timestamps carry the chart, with a BTC
    value of [0]. *)
Example merge_gold_only :
  map (fun p => (timestamp p, btc p, xau p))
    (fetchChartData sampleParseFloat
       (sampleFetch (Response false 503 None)
                    (Response true 200 (Some seriesB)))
       sampleLabel sampleLabel TimeFrame.H1)
  = [ (Js.Num 1000%float, 0%float, 50%float) ].
Proof. reflexivity. Qed.

(** ** High/low buckets *)

Section HighLowFacts.

Variable parseFloat : Js.value -> Js.num.
Variable fetch : string -> fetch_outcome (list kline).

Lemma highLowOf_timeframe (symbol : string) (def : definition) :
  timeframe (highLowOf parseFloat fetch symbol def) = label def.
Proof.
  unfold highLowOf.
  destruct (safeFetch fetch _) as [data | ]; [ | reflexivity].
  now destruct (Nat.eqb (List.length data) 0).
Qed.

(** A bucket without data is all zeros. *)
Lemma highLowOf_no_data (symbol : string) (def : definition) :
  let data :=
    safeFetch fetch (klinesUrl symbol (interval def) (limit def)) in
  data = None \/ data = Some [] ->
  highLowOf parseFloat fetch symbol def
  = {| timeframe := label def; high := 0%float; low := 0%float;
       rangePercent := 0%float |}.
Proof.
  intros data Hdata. unfold highLowOf. fold data.
  now destruct Hdata as [-> | ->].
Qed.

(** A bucket with data is computed from the last row. *)
Lemma highLowOf_last (symbol : string) (def : definition)
    (init : list kline) (candle : kline) :
  safeFetch fetch (klinesUrl symbol (interval def) (limit def))
  = Some (init ++ [candle])%list ->
  highLowOf parseFloat fetch symbol def
  = {| timeframe := label def;
       high := parseFloat (Js.index candle 2);
       low := parseFloat (Js.index candle 3);
       rangePercent := range (parseFloat (Js.index candle 2))
                         (parseFloat (Js.index candle 3)) |}.
Proof.
  intros Hdata. unfold highLowOf. rewrite Hdata.
  rewrite length_app. cbn [List.length].
  replace (List.length init + 1 - 1) with (List.length init) by lia.
  replace (Nat.eqb (List.length init + 1) 0) with false
    by (symmetry; apply Nat.eqb_neq; lia).
  rewrite app_nth2, Nat.sub_diag by lia. reflexivity.
Qed.

(** A bucket depends on the network only through its own request. *)
Lemma highLowOf_own_request (fetch' : string -> fetch_outcome (list kline))
    (symbol : string) (def : definition) :
  fetch' (klinesUrl symbol (interval def) (limit def))
  = fetch (klinesUrl symbol (interval def) (limit def)) ->
  highLowOf parseFloat fetch' symbol def
  = highLowOf parseFloat fetch symbol def.
Proof.
  intros Hsame. unfold highLowOf, safeFetch. now rewrite Hsame.
Qed.

Lemma fetchHighLow_nth (symbol : option string) (i : nat) (def : definition) :
  nth_error definitions i = Some def ->
  nth_error (fetchHighLow parseFloat fetch symbol) i
  = Some (highLowOf parseFloat fetch (symbolOrDefault symbol) def).
Proof.
  intros Hdef. unfold fetchHighLow.
  now rewrite nth_error_map, Hdef.
Qed.

End HighLowFacts.

(** The step-by-step evaluation computes [range]. *)
Lemma eval_range_expr (high low : Js.num) :
  fst (eval high low range_expr) = range high low.
Proof.
  unfold range, range_expr. cbn [eval].
  now destruct (Js.gt low 0%float).
Qed.

(** The only division of [range] is by a [low] that is greater than [0]. *)
Lemma range_divisions_cases (high low : Js.num) :
  range_divisions high low
  = if Js.gt low 0%float then [(PrimFloat.sub high low, low)] else [].
Proof.
  unfold range_divisions, range_expr. cbn [eval].
  now destruct (Js.gt low 0%float).
Qed.

(** C2. When the parsed low of the candle of a bucket is greater than 0, the
    entry of that bucket has [rangePercent = (high - low) / low * 100], in
    the arithmetic of JavaScript numbers. *)
Theorem rangePercent_positive_low :
  forall (parseFloat : Js.value -> Js.num)
         (fetch : string -> fetch_outcome (list kline))
         (symbol : option string) (i : nat) (def : definition)
         (init : list kline) (candle : kline),
    let high := parseFloat (Js.index candle 2) in
    let low := parseFloat (Js.index candle 3) in
    nth_error definitions i = Some def ->
    safeFetch fetch
      (klinesUrl (symbolOrDefault symbol) (interval def) (limit def))
    = Some (init ++ [candle])%list ->
    Js.gt low 0%float = true ->
    exists entry,
      nth_error (fetchHighLow parseFloat fetch symbol) i = Some entry
      /\ rangePercent entry
         = PrimFloat.mul (PrimFloat.div (PrimFloat.sub high low) low)
             100%float.
Proof.
  intros parseFloat fetch symbol i def init candle high low Hdef Hdata Hlow.
  eexists; split.
  - rewrite (fetchHighLow_nth parseFloat fetch symbol i def Hdef).
    rewrite (highLowOf_last parseFloat fetch _ def init candle Hdata).
    reflexivity.
  - cbn [rangePercent]. unfold range. fold low. now rewrite Hlow.
Qed.

Lemma rangePercent_positive_low_witness :
  exists entry,
    nth_error
      (fetchHighLow sampleParseFloat
         (fun _ => Response true 200 (Some seriesA)) (Some "PAXGUSDT")) 2
    = Some entry
    /\ rangePercent entry
       = PrimFloat.mul
           (PrimFloat.div (PrimFloat.sub 111%float 109%float) 109%float)
           100%float.
Proof.
  apply (rangePercent_positive_low sampleParseFloat
           (fun _ => Response true 200 (Some seriesA)) (Some "PAXGUSDT") 2
           {| label := "24 Giờ"; interval := "1d"; limit := 1 |}
           [row 1000%float 101%float 99%float 100%float]
           (row 2000%float 111%float 109%float 110%float)).
  - reflexivity.
  - reflexivity.
  - reflexivity.
Defined.

(** C3. When the parsed low of the candle of a bucket equals 0, the entry of
    that bucket has [rangePercent = 0] and computing it performs no
    division; and no computation of [range] ever divides by zero. *)
Theorem rangePercent_zero_low :
  forall (parseFloat : Js.value -> Js.num)
         (fetch : string -> fetch_outcome (list kline))
         (symbol : option string) (i : nat) (def : definition)
         (init : list kline) (candle : kline),
    let high := parseFloat (Js.index candle 2) in
    let low := parseFloat (Js.index candle 3) in
    nth_error definitions i = Some def ->
    safeFetch fetch
      (klinesUrl (symbolOrDefault symbol) (interval def) (limit def))
    = Some (init ++ [candle])%list ->
    Js.isZero low = true ->
    (exists entry,
       nth_error (fetchHighLow parseFloat fetch symbol) i = Some entry
       /\ rangePercent entry = 0%float
       /\ eval high low range_expr = (rangePercent entry, []))
    /\ (forall h l : Js.num,
          Forall (fun d => Js.isZero (snd d) = false) (range_divisions h l)).
Proof.
  intros parseFloat fetch symbol i def init candle high low Hdef Hdata Hlow.
  pose proof (isZero_not_gt low Hlow) as Hgt.
  split.
  - eexists; split; [ | split].
    + rewrite (fetchHighLow_nth parseFloat fetch symbol i def Hdef).
      rewrite (highLowOf_last parseFloat fetch _ def init candle Hdata).
      reflexivity.
    + cbn [rangePercent]. unfold range. fold low. now rewrite Hgt.
    + cbn [rangePercent]. unfold range, range_expr. fold high low.
      cbn [eval]. now rewrite Hgt.
  - intros h l. rewrite range_divisions_cases.
    destruct (Js.gt l 0%float) eqn:El; constructor; [ | constructor].
    cbn [snd]. destruct (Js.isZero l) eqn:Ez; [ | reflexivity].
    apply isZero_not_gt in Ez. congruence.
Qed.

Lemma rangePercent_zero_low_witness :
  (exists entry,
     nth_error
       (fetchHighLow sampleParseFloat
          (fun _ => Response true 200 (Some seriesZero)) None) 0
     = Some entry
     /\ rangePercent entry = 0%float
     /\ eval 51%float 0%float range_expr = (rangePercent entry, []))
  /\ (forall h l : Js.num,
        Forall (fun d => Js.isZero (snd d) = false) (range_divisions h l)).
Proof.
  apply (rangePercent_zero_low sampleParseFloat
           (fun _ => Response true 200 (Some seriesZero)) None 0
           {| label := "1 Giờ"; interval := "1h"; limit := 2 |}
           [] (row 1000%float 51%float 0%float 0%float)).
  - reflexivity.
  - reflexivity.
  - reflexivity.
Defined.

(** With the one-day request failing, the other three buckets carry the
    figures of their last candle. *)
Example fetchHighLow_dayDown :
  map (fun e => (timeframe e, high e, low e))
    (fetchHighLow sampleParseFloat dayDown None)
  = [ ("1 Giờ", 111%float, 109%float);
      ("4 Giờ", 111%float, 109%float);
      ("24 Giờ", 0%float, 0%float);
      ("7 Ngày", 111%float, 109%float) ].
Proof. reflexivity. Qed.


(** ** The commentary request *)

Section AnalysisFacts.

Variables numToString toFixed2 : Js.num -> string.
Variable sdk : GenAI.

(** What the version of [services/marketService.ts] does, case by case:
    whatever the key is, the client is constructed with it and, unless the
    constructor throws, the request is sent. *)
Lemma MarketService_fetchAIAnalysis_cases
    (API_KEY : option string) (marketData : AnalysisInput) (mode : string)
    (log : list GenerateContentParameters) :
  let request :=
    {| model := "gemini-2.5-flash";
       contents := buildPrompt numToString toFixed2 marketData mode |} in
  MarketService.fetchAIAnalysis numToString toFixed2 sdk API_KEY marketData
    mode log
  = match GoogleGenAI sdk API_KEY with
    | Eff.Thrown _ => (Eff.Returned (Some retryLaterMessage), log)
    | Eff.Returned ai =>
        (match generateContent sdk ai request with
         | Eff.Returned text => Eff.Returned text
         | Eff.Thrown _ => Eff.Returned (Some retryLaterMessage)
         end, (log ++ [request])%list)
    end.
Proof.
  intros request.
  unfold MarketService.fetchAIAnalysis, requestAnalysis, Eff.tryCatch,
    Eff.bind, Eff.lift, Eff.call, Eff.ret.
  fold request.
  destruct (GoogleGenAI sdk API_KEY) as [ai | e]; [ | reflexivity].
  now destruct (generateContent sdk ai request).
Qed.

(** The merged application checks the key first and otherwise does the
    same. *)
Lemma Merged_fetchAIAnalysis_cases
    (API_KEY : option string) (marketData : AnalysisInput) (mode : string)
    (log : list GenerateContentParameters) :
  Merged.fetchAIAnalysis numToString toFixed2 sdk API_KEY marketData mode log
  = if Js.str_falsy API_KEY
    then (Eff.Returned (Some notConfiguredMessage), log)
    else MarketService.fetchAIAnalysis numToString toFixed2 sdk API_KEY
           marketData mode log.
Proof.
  unfold Merged.fetchAIAnalysis, MarketService.fetchAIAnalysis, Eff.tryCatch.
  now destruct (Js.str_falsy API_KEY).
Qed.

(** In the merged application a missing or empty key gives the fixed
    message, and the log of requests is left as it was. *)
Lemma Merged_fetchAIAnalysis_not_configured
    (API_KEY : option string) (marketData : AnalysisInput) (mode : string)
    (log : list GenerateContentParameters) :
  Js.str_falsy API_KEY = true ->
  Merged.fetchAIAnalysis numToString toFixed2 sdk API_KEY marketData mode log
  = (Eff.Returned (Some notConfiguredMessage), log).
Proof.
  intros Hkey. now rewrite Merged_fetchAIAnalysis_cases, Hkey.
Qed.

End AnalysisFacts.

Lemma messages_differ : retryLaterMessage <> notConfiguredMessage.
Proof. discriminate. Qed.

(** The two versions run with the empty key that the browser entry point
    installs, and with no key at all: the version of the services module
    sends the request in the first case and meets the throwing constructor
    in the second, and answers with the retry-later message in both. *)
Example unconfigured_key_runs :
  forall (numToString toFixed2 : Js.num -> string)
         (marketData : AnalysisInput) (mode : string),
    let request :=
      {| model := "gemini-2.5-flash";
         contents := buildPrompt numToString toFixed2 marketData mode |} in
    MarketService.fetchAIAnalysis numToString toFixed2 (browserSdk "ok")
      (Some "") marketData mode []
    = (Eff.Returned (Some retryLaterMessage), [request])
    /\ MarketService.fetchAIAnalysis numToString toFixed2 (browserSdk "ok")
         None marketData mode []
       = (Eff.Returned (Some retryLaterMessage), [])
    /\ Merged.fetchAIAnalysis numToString toFixed2 (browserSdk "ok")
         (Some "") marketData mode []
       = (Eff.Returned (Some notConfiguredMessage), [])
    /\ Merged.fetchAIAnalysis numToString toFixed2 (browserSdk "ok")
         None marketData mode []
       = (Eff.Returned (Some notConfiguredMessage), []).
Proof.
  intros numToString toFixed2 marketData mode request.
  repeat split; reflexivity.
Qed.

(** C5. When the text-generation SDK throws, at the construction of the
    client or at the request, both versions of [fetchAIAnalysis] return the
    fixed retry-later message (the merged one when a key is configured, so
    that the service is called at all); and on no input does either version
    complete by throwing. *)
Theorem service_failure_gives_retry_message :
  forall (numToString toFixed2 : Js.num -> string) (sdk : GenAI)
         (API_KEY : option string) (marketData : AnalysisInput)
         (mode : string) (log : list GenerateContentParameters),
    let request :=
      {| model := "gemini-2.5-flash";
         contents := buildPrompt numToString toFixed2 marketData mode |} in
    let service := MarketService.fetchAIAnalysis numToString toFixed2 sdk
                     API_KEY marketData mode log in
    let merged := Merged.fetchAIAnalysis numToString toFixed2 sdk
                    API_KEY marketData mode log in
    ((exists e, GoogleGenAI sdk API_KEY = Eff.Thrown e)
     \/ (exists ai e, GoogleGenAI sdk API_KEY = Eff.Returned ai
                      /\ generateContent sdk ai request = Eff.Thrown e) ->
     fst service = Eff.Returned (Some retryLaterMessage)
     /\ (Js.str_falsy API_KEY = false ->
         fst merged = Eff.Returned (Some retryLaterMessage)))
    /\ (exists text, fst service = Eff.Returned text)
    /\ (exists text, fst merged = Eff.Returned text).
Proof.
  intros numToString toFixed2 sdk API_KEY marketData mode log request
    service merged.
  assert (merged = if Js.str_falsy API_KEY
                   then (Eff.Returned (Some notConfiguredMessage), log)
                   else service) as Hmerged
    by apply Merged_fetchAIAnalysis_cases.
  pose proof (MarketService_fetchAIAnalysis_cases numToString toFixed2 sdk
                API_KEY marketData mode log) as Hservice.
  cbv zeta in Hservice. fold request service in Hservice.
  assert (exists text, fst service = Eff.Returned text) as Hreturns.
  { rewrite Hservice.
    destruct (GoogleGenAI sdk API_KEY) as [ai | e]; cbn; [ | eauto].
    destruct (generateContent sdk ai request); eauto. }
  split; [ | split; [exact Hreturns | ]].
  - intros Hfails.
    assert (fst service = Eff.Returned (Some retryLaterMessage)) as Hretry.
    { rewrite Hservice.
      destruct Hfails as [(e & ->) | (ai & e & -> & ->)]; reflexivity. }
    split; [exact Hretry | ].
    intros Hkey. now rewrite Hmerged, Hkey.
  - rewrite Hmerged. destruct (Js.str_falsy API_KEY); cbn; eauto.
Qed.

Lemma service_failure_gives_retry_message_witness :
  fst (MarketService.fetchAIAnalysis sampleNumToString sampleNumToString
         downSdk (Some "key") sampleInput "btc" [])
  = Eff.Returned (Some retryLaterMessage)
  /\ fst (Merged.fetchAIAnalysis sampleNumToString sampleNumToString
            downSdk (Some "key") sampleInput "btc" [])
     = Eff.Returned (Some retryLaterMessage).
Proof.
  destruct (proj1 (service_failure_gives_retry_message sampleNumToString
                     sampleNumToString downSdk (Some "key") sampleInput
                     "btc" [])) as [Hservice Hmerged].
  - right. exists (Some "key"), "fetch failed". split; reflexivity.
  - split; [exact Hservice | apply Hmerged; reflexivity].
Defined.

(** A reply of the service is returned as it is. *)
Example fetchAIAnalysis_reply :
  fst (Merged.fetchAIAnalysis sampleNumToString sampleNumToString
         (browserSdk "BUY") (Some "key") sampleInput "combined" [])
  = Eff.Returned (Some "BUY").
Proof. reflexivity. Qed.

(** The line of the combined prompt with the one-day range of BTC reads the
    entry whose label contains ['24']; with no such entry the text is
    ['undefined']. *)
Example range24H_sample :
  range24H sampleNumToString (btcVolatility sampleInput) = "n"
  /\ range24H sampleNumToString (goldVolatility sampleInput) = "undefined".
Proof. split; reflexivity. Qed.

(** ** Tickers *)


(** C6. When the ticker sub-fetch yields no data, [fetchBTCPrice] returns
    exactly [{price: 95000, changePercent: 0}] and [fetchGoldPrice] exactly
    [{price: 2650, changePercent: 0}]: plain objects, with nothing
    raised. *)
Theorem ticker_fallback_on_failed_fetch :
  forall (parseFloat : Js.value -> Js.num)
         (fetch : string -> fetch_outcome ticker_json),
    (safeFetch fetch (BINANCE_API ++ "/ticker/24hr?symbol=BTCUSDT") = None ->
     fetchBTCPrice parseFloat fetch
     = {| price := 95000%float; changePercent := 0%float;
          change24h := None |})
    /\
    (safeFetch fetch (BINANCE_API ++ "/ticker/24hr?symbol=PAXGUSDT") = None ->
     fetchGoldPrice parseFloat fetch
     = {| price := 2650%float; changePercent := 0%float;
          change24h := None |}).
Proof.
  intros parseFloat fetch; split; intros Hnone.
  - unfold fetchBTCPrice. now rewrite Hnone.
  - unfold fetchGoldPrice. now rewrite Hnone.
Qed.

Lemma ticker_fallback_on_failed_fetch_witness :
  fetchBTCPrice sampleParseFloat (fun _ => NetworkError)
  = {| price := 95000%float; changePercent := 0%float; change24h := None |}
  /\
  fetchGoldPrice sampleParseFloat (fun _ => Response false 500 None)
  = {| price := 2650%float; changePercent := 0%float; change24h := None |}.
Proof.
  split.
  - apply (proj1 (ticker_fallback_on_failed_fetch
                    sampleParseFloat (fun _ => NetworkError))).
    reflexivity.
  - apply (proj2 (ticker_fallback_on_failed_fetch
                    sampleParseFloat (fun _ => Response false 500 None))).
    reflexivity.
Defined.

(** * Further properties *)

(** ** The chart series, point by point *)

Section ChartPoints.

Variable parseFloat : Js.value -> Js.num.
Variable fetch : string -> fetch_outcome (list kline).
Variables toLocaleDateString toLocaleTimeString : Js.value -> string.
Variable timeFrame : string.

Let btcKlines : option (list kline) :=
  safeFetch fetch
    (klinesUrl "BTCUSDT" (fst (candleParams timeFrame))
       (snd (candleParams timeFrame))).
Let goldKlines : option (list kline) :=
  safeFetch fetch
    (klinesUrl "PAXGUSDT" (fst (candleParams timeFrame))
       (snd (candleParams timeFrame))).
Let out : list ChartDataPoint :=
  fetchChartData parseFloat fetch toLocaleDateString toLocaleTimeString
    timeFrame.

Lemma out_merge :
  out = mergeKlines parseFloat toLocaleDateString toLocaleTimeString
          timeFrame btcKlines goldKlines.
Proof. apply fetchChartData_unfold. Qed.

(** X3. The chart is empty exactly when neither series has a row, be it that
    its fetch failed or that it answered with an empty list. *)
Theorem chart_empty_iff :
  out = [] <->
  (btcKlines = None \/ btcKlines = Some [])
  /\ (goldKlines = None \/ goldKlines = Some []).
Proof.
  rewrite out_merge. unfold mergeKlines.
  destruct btcKlines as [[ | k btc] | ], goldKlines as [[ | g gold] | ];
    cbn - [chartPoint]; split;
    try (intros _; split; auto; fail);
    try discriminate;
    try reflexivity;
    intros [[H | H] [H' | H']]; discriminate.
Qed.

(** X4. No point of the chart has a gold value of [0] or [NaN]: the value is a
    truthy close or the constant 2650. *)
Theorem chart_xau_truthy (p : ChartDataPoint) :
  In p out -> Js.num_falsy (xau p) = false.
Proof.
  rewrite out_merge. intros Hin.
  apply mergeKlines_In in Hin. destruct Hin as (btcData & k & ->).
  cbn [chartPoint xau].
  destruct (Js.Map_get _ _) as [v | ]; [ | reflexivity].
  destruct (Js.num_falsy v) eqn:Ev; [reflexivity | exact Ev].
Qed.

(** X5. With a non-empty BTC series the points carry, in order, the timestamps
    and the parsed closes of the BTC rows. *)
Theorem chart_follows_btc (rows : list kline) :
  btcKlines = Some rows -> rows <> [] ->
  map (fun p => (timestamp p, btc p)) out
  = map (fun k => (Js.index k 0, parseFloat (Js.index k 4))) rows.
Proof.
  intros Hbtc Hne. rewrite out_merge, Hbtc.
  rewrite mergeKlines_primary by exact Hne.
  rewrite map_map. apply map_ext. intros k. cbn [chartPoint timestamp btc].
  destruct rows; [congruence | reflexivity].
Qed.

(** X6. With no BTC row the points carry the timestamps of the gold rows, in
    order, and a BTC value of [0]. *)
Theorem chart_follows_gold (rows : list kline) :
  btcKlines = None \/ btcKlines = Some [] ->
  goldKlines = Some rows ->
  map (fun p => (timestamp p, btc p)) out
  = map (fun k => (Js.index k 0, 0%float)) rows.
Proof.
  intros Hbtc Hgold. rewrite out_merge, Hgold.
  rewrite mergeKlines_secondary by exact Hbtc.
  rewrite map_map. apply map_ext. intros k. reflexivity.
Qed.

(** X7. A BTC point whose timestamp no gold row has gets the constant 2650;
    so does every point when the gold fetch failed. *)
Theorem chart_gap_filled (rows : list kline) (k : kline) (i : nat) :
  btcKlines = Some rows ->
  nth_error rows i = Some k ->
  (goldKlines = None
   \/ exists gold,
        goldKlines = Some gold
        /\ forall g, In g gold ->
                     Js.sameValueZero (Js.index g 0) (Js.index k 0) = false) ->
  exists p,
    nth_error out i = Some p
    /\ timestamp p = Js.index k 0
    /\ xau p = 2650%float.
Proof.
  intros Hbtc Hk Hgold.
  assert (rows <> []) as Hne by (intros ->; destruct i; discriminate).
  rewrite out_merge, Hbtc.
  rewrite mergeKlines_primary by exact Hne.
  rewrite nth_error_map, Hk. cbn [option_map].
  eexists; split; [reflexivity | split; [reflexivity | ]].
  cbn [chartPoint xau].
  destruct Hgold as [-> | (gold & -> & Hgold)].
  - reflexivity.
  - now rewrite (goldMapOf_absent parseFloat gold (Js.index k 0) Hgold).
Qed.

(** X8. A BTC point whose timestamp has a gold row with a truthy parsed close
    gets that close; of several rows with the timestamp the last counts. *)
Theorem chart_matched_close
    (rows pre post : list kline) (g k : kline) (i : nat) :
  btcKlines = Some rows ->
  goldKlines = Some (pre ++ g :: post)%list ->
  nth_error rows i = Some k ->
  Js.sameValueZero (Js.index g 0) (Js.index k 0) = true ->
  (forall g', In g' post ->
              Js.sameValueZero (Js.index g' 0) (Js.index k 0) = false) ->
  Js.num_falsy (parseFloat (Js.index g 4)) = false ->
  exists p,
    nth_error out i = Some p
    /\ timestamp p = Js.index k 0
    /\ btc p = parseFloat (Js.index k 4)
    /\ xau p = parseFloat (Js.index g 4).
Proof.
  intros Hbtc Hgold Hk Hmatch Hlast Htruthy.
  assert (rows <> []) as Hne by (intros ->; destruct i; discriminate).
  rewrite out_merge, Hbtc, Hgold.
  rewrite mergeKlines_primary by exact Hne.
  rewrite nth_error_map, Hk. cbn [option_map].
  eexists; split; [reflexivity | split; [reflexivity | split]].
  - cbn [chartPoint btc]. destruct rows; [congruence | reflexivity].
  - cbn [chartPoint xau].
    rewrite (goldMapOf_last parseFloat pre post g (Js.index k 0) Hmatch Hlast).
    now rewrite Htruthy.
Qed.

End ChartPoints.

Lemma chart_xau_truthy_witness :
  Js.num_falsy
    (xau {| time := "label"; timestamp := Js.Num 1000%float;
            btc := 100%float; xau := 2650%float |}) = false.
Proof.
  apply (chart_xau_truthy sampleParseFloat
           (sampleFetch (Response true 200 (Some seriesA))
                        (Response true 200 (Some seriesZero)))
           sampleLabel sampleLabel TimeFrame.H1).
  left. reflexivity.
Defined.

Lemma chart_follows_btc_witness :
  map (fun p => (timestamp p, btc p))
    (fetchChartData sampleParseFloat
       (sampleFetch (Response true 200 (Some seriesA))
                    (Response true 200 (Some seriesGaps)))
       sampleLabel sampleLabel TimeFrame.H1)
  = [ (Js.Num 1000%float, 100%float); (Js.Num 2000%float, 110%float) ].
Proof.
  apply (chart_follows_btc sampleParseFloat
           (sampleFetch (Response true 200 (Some seriesA))
                        (Response true 200 (Some seriesGaps)))
           sampleLabel sampleLabel TimeFrame.H1 seriesA).
  - reflexivity.
  - discriminate.
Defined.

Lemma chart_follows_gold_witness :
  map (fun p => (timestamp p, btc p))
    (fetchChartData sampleParseFloat
       (sampleFetch (Response true 200 (Some []))
                    (Response true 200 (Some seriesGaps)))
       sampleLabel sampleLabel TimeFrame.H1)
  = [ (Js.Num 1000%float, 0%float); (Js.Num 1500%float, 0%float) ].
Proof.
  apply (chart_follows_gold sampleParseFloat
           (sampleFetch (Response true 200 (Some []))
                        (Response true 200 (Some seriesGaps)))
           sampleLabel sampleLabel TimeFrame.H1 seriesGaps).
  - right. reflexivity.
  - reflexivity.
Defined.

Lemma chart_gap_filled_witness :
  exists p,
    nth_error
      (fetchChartData sampleParseFloat
         (sampleFetch (Response true 200 (Some seriesA))
                      (Response true 200 (Some seriesGaps)))
         sampleLabel sampleLabel TimeFrame.H1) 1 = Some p
    /\ timestamp p = Js.Num 2000%float
    /\ xau p = 2650%float.
Proof.
  apply (chart_gap_filled sampleParseFloat
           (sampleFetch (Response true 200 (Some seriesA))
                        (Response true 200 (Some seriesGaps)))
           sampleLabel sampleLabel TimeFrame.H1 seriesA
           (row 2000%float 111%float 109%float 110%float) 1).
  - reflexivity.
  - reflexivity.
  - right. exists seriesGaps. split; [reflexivity | ].
    intros g [<- | [<- | []]]; reflexivity.
Defined.

Lemma chart_matched_close_witness :
  exists p,
    nth_error
      (fetchChartData sampleParseFloat
         (sampleFetch (Response true 200 (Some seriesA))
                      (Response true 200 (Some seriesGaps)))
         sampleLabel sampleLabel TimeFrame.H1) 0 = Some p
    /\ timestamp p = Js.Num 1000%float
    /\ btc p = 100%float
    /\ xau p = 50%float.
Proof.
  apply (chart_matched_close sampleParseFloat
           (sampleFetch (Response true 200 (Some seriesA))
                        (Response true 200 (Some seriesGaps)))
           sampleLabel sampleLabel TimeFrame.H1 seriesA []
           [row 1500%float 52%float 50%float 51%float]
           (row 1000%float 51%float 49%float 50%float)
           (row 1000%float 101%float 99%float 100%float) 0).
  - reflexivity.
  - reflexivity.
  - reflexivity.
  - reflexivity.
  - intros g' [<- | []]. reflexivity.
  - reflexivity.
Defined.

(** ** High/low buckets, further *)

(** A [NaN] is not greater than [0]. *)
Lemma isNaN_not_gt (x : Js.num) :
  Js.isNaN x = true -> Js.gt x 0%float = false.
Proof.
  intros Hnan. apply isNaN_iff in Hnan.
  unfold Js.gt. rewrite ltb_spec, Hnan. reflexivity.
Qed.

(** X9. Of the rows of a bucket only the last is read: two answers that end
    with the same row give the same entry. *)
Theorem bucket_reads_last_row_only :
  forall (parseFloat : Js.value -> Js.num)
         (fetch fetch' : string -> fetch_outcome (list kline))
         (symbol : option string) (i : nat) (def : definition)
         (init init' : list kline) (candle : kline),
    let url :=
      klinesUrl (symbolOrDefault symbol) (interval def) (limit def) in
    nth_error definitions i = Some def ->
    safeFetch fetch url = Some (init ++ [candle])%list ->
    safeFetch fetch' url = Some (init' ++ [candle])%list ->
    nth_error (fetchHighLow parseFloat fetch symbol) i
    = nth_error (fetchHighLow parseFloat fetch' symbol) i
    /\ exists entry,
         nth_error (fetchHighLow parseFloat fetch symbol) i = Some entry
         /\ high entry = parseFloat (Js.index candle 2)
         /\ low entry = parseFloat (Js.index candle 3).
Proof.
  intros parseFloat fetch fetch' symbol i def init init' candle url Hdef
    Hdata Hdata'.
  rewrite (fetchHighLow_nth parseFloat fetch symbol i def Hdef).
  rewrite (fetchHighLow_nth parseFloat fetch' symbol i def Hdef).
  rewrite (highLowOf_last parseFloat fetch _ def init candle Hdata).
  rewrite (highLowOf_last parseFloat fetch' _ def init' candle Hdata').
  split; [reflexivity | ].
  eexists; split; [reflexivity | split; reflexivity].
Qed.

Lemma bucket_reads_last_row_only_witness :
  nth_error
    (fetchHighLow sampleParseFloat
       (fun _ => Response true 200 (Some seriesA)) None) 1
  = nth_error
      (fetchHighLow sampleParseFloat
         (fun _ => Response true 200
                     (Some [row 2000%float 111%float 109%float 110%float]))
         None) 1
  /\ exists entry,
       nth_error
         (fetchHighLow sampleParseFloat
            (fun _ => Response true 200 (Some seriesA)) None) 1
       = Some entry
       /\ high entry = 111%float
       /\ low entry = 109%float.
Proof.
  apply (bucket_reads_last_row_only sampleParseFloat
           (fun _ => Response true 200 (Some seriesA))
           (fun _ => Response true 200
                       (Some [row 2000%float 111%float 109%float 110%float]))
           None 1
           {| label := "4 Giờ"; interval := "4h"; limit := 2 |}
           [row 1000%float 101%float 99%float 100%float] []
           (row 2000%float 111%float 109%float 110%float)).
  - reflexivity.
  - reflexivity.
  - reflexivity.
Defined.

(** X10. When the low of the candle does not parse to a number ([NaN]), the
    entry has a range of [0], and keeps the [NaN] as its low. *)
Theorem rangePercent_nan_low :
  forall (parseFloat : Js.value -> Js.num)
         (fetch : string -> fetch_outcome (list kline))
         (symbol : option string) (i : nat) (def : definition)
         (init : list kline) (candle : kline),
    nth_error definitions i = Some def ->
    safeFetch fetch
      (klinesUrl (symbolOrDefault symbol) (interval def) (limit def))
    = Some (init ++ [candle])%list ->
    Js.isNaN (parseFloat (Js.index candle 3)) = true ->
    exists entry,
      nth_error (fetchHighLow parseFloat fetch symbol) i = Some entry
      /\ rangePercent entry = 0%float
      /\ Js.isNaN (low entry) = true.
Proof.
  intros parseFloat fetch symbol i def init candle Hdef Hdata Hnan.
  rewrite (fetchHighLow_nth parseFloat fetch symbol i def Hdef).
  rewrite (highLowOf_last parseFloat fetch _ def init candle Hdata).
  eexists; split; [reflexivity | split].
  - cbn [rangePercent]. unfold range.
    now rewrite (isNaN_not_gt _ Hnan).
  - exact Hnan.
Qed.

Lemma rangePercent_nan_low_witness :
  exists entry,
    nth_error
      (fetchHighLow sampleParseFloat
         (fun _ => Response true 200 (Some [rowBadLow])) None) 3
    = Some entry
    /\ rangePercent entry = 0%float
    /\ Js.isNaN (low entry) = true.
Proof.
  apply (rangePercent_nan_low sampleParseFloat
           (fun _ => Response true 200 (Some [rowBadLow])) None 3
           {| label := "7 Ngày"; interval := "1w"; limit := 1 |}
           [] rowBadLow).
  - reflexivity.
  - reflexivity.
  - reflexivity.
Defined.

(** ** Funding rates *)




(** ** The commentary request, further *)

Section RequestFacts.

Variables numToString toFixed2 : Js.num -> string.
Variable sdk : GenAI.
Variable API_KEY : option string.
Variable marketData : AnalysisInput.
Variable mode : string.
Variable log : list GenerateContentParameters.

Let request : GenerateContentParameters :=
  {| model := "gemini-2.5-flash";
     contents := buildPrompt numToString toFixed2 marketData mode |}.
Let service :=
  MarketService.fetchAIAnalysis numToString toFixed2 sdk API_KEY marketData
    mode log.
Let merged :=
  Merged.fetchAIAnalysis numToString toFixed2 sdk API_KEY marketData mode log.

(** X12. One call of [fetchAIAnalysis] sends at most one request, whatever
    fails: the log of requests is left as it was or grows by the one request
    for the model ['gemini-2.5-flash'] with the prompt of the mode. *)
Theorem at_most_one_request :
  (snd service = log \/ snd service = (log ++ [request])%list)
  /\ (snd merged = log \/ snd merged = (log ++ [request])%list).
Proof.
  assert (snd service = log \/ snd service = (log ++ [request])%list)
    as Hservice.
  { unfold service. rewrite MarketService_fetchAIAnalysis_cases.
    destruct (GoogleGenAI sdk API_KEY); [right | left]; reflexivity. }
  split; [exact Hservice | ].
  unfold merged. rewrite Merged_fetchAIAnalysis_cases.
  destruct (Js.str_falsy API_KEY); [left; reflexivity | exact Hservice].
Qed.

(** X13. When the client is constructed and the service answers, the answer is
    returned as it is, also when it has no text, and exactly one request has
    been sent. *)
Theorem reply_returned_verbatim (ai : client sdk) (text : option string) :
  GoogleGenAI sdk API_KEY = Eff.Returned ai ->
  generateContent sdk ai request = Eff.Returned text ->
  service = (Eff.Returned text, (log ++ [request])%list)
  /\ (Js.str_falsy API_KEY = false ->
      merged = (Eff.Returned text, (log ++ [request])%list)).
Proof.
  intros Hai Htext.
  assert (service = (Eff.Returned text, (log ++ [request])%list)) as Hservice.
  { unfold service. rewrite MarketService_fetchAIAnalysis_cases.
    rewrite Hai. fold request. now rewrite Htext. }
  split; [exact Hservice | ].
  intros Hkey. unfold merged.
  rewrite Merged_fetchAIAnalysis_cases, Hkey. exact Hservice.
Qed.

End RequestFacts.

Lemma reply_returned_verbatim_witness :
  MarketService.fetchAIAnalysis sampleNumToString sampleNumToString
    (browserSdk "HOLD") (Some "key") sampleInput "gold" []
  = (Eff.Returned (Some "HOLD"),
     [ {| model := "gemini-2.5-flash";
          contents := buildPrompt sampleNumToString sampleNumToString
                        sampleInput "gold" |} ])
  /\ Merged.fetchAIAnalysis sampleNumToString sampleNumToString
       (browserSdk "HOLD") (Some "key") sampleInput "gold" []
     = (Eff.Returned (Some "HOLD"),
        [ {| model := "gemini-2.5-flash";
             contents := buildPrompt sampleNumToString sampleNumToString
                           sampleInput "gold" |} ]).
Proof.
  destruct (reply_returned_verbatim sampleNumToString sampleNumToString
              (browserSdk "HOLD") (Some "key") sampleInput "gold" []
              "key" (Some "HOLD")) as [Hservice Hmerged].
  - reflexivity.
  - reflexivity.
  - split; [exact Hservice | apply Hmerged; reflexivity].
Defined.

(** ** The prompt *)

Lemma prefix_cons (c : ascii) (t s : string) :
  String.prefix (String c t) (String c s) = String.prefix t s.
Proof. cbn. now destruct (ascii_dec c c). Qed.

Lemma prefix_app_same (x t s : string) :
  String.prefix (x ++ t) (x ++ s) = String.prefix t s.
Proof.
  induction x as [ | c x IH]; [reflexivity | ].
  cbn [String.append]. now rewrite prefix_cons.
Qed.

Lemma prefix_nil (s : string) : String.prefix "" s = true.
Proof. now destruct s. Qed.

Lemma prefix_app_self (x s : string) : String.prefix x (x ++ s) = true.
Proof.
  induction x as [ | c x IH]; [apply prefix_nil | ].
  cbn [String.append]. now rewrite prefix_cons.
Qed.

Lemma includes_at_head (s t : string) :
  String.prefix t s = true -> Js.includes s t = true.
Proof. intros H. destruct s; cbn [Js.includes]; now rewrite H. Qed.

Lemma includes_cons (c : ascii) (s t : string) :
  Js.includes s t = true -> Js.includes (String c s) t = true.
Proof. intros H. cbn [Js.includes]. rewrite H. apply orb_true_r. Qed.

Lemma includes_app_r (a s t : string) :
  Js.includes s t = true -> Js.includes (a ++ s) t = true.
Proof.
  intros H. induction a as [ | c a IH]; [exact H | ].
  cbn [String.append]. now apply includes_cons.
Qed.

(** Match the text sought against the start of the text at hand. *)
Ltac prefix_solve :=
  repeat first [ rewrite prefix_cons | rewrite prefix_app_same ];
  first [ apply prefix_nil | apply prefix_app_self ].

(** Walk the literal at hand, character by character, to the text sought. *)
Ltac find_chars :=
  first [ apply includes_at_head; solve [prefix_solve]
        | apply includes_cons; find_chars ].

Ltac find_here := cbn [String.append]; find_chars.

Lemma buildPrompt_other (numToString toFixed2 : Js.num -> string)
    (marketData : AnalysisInput) (mode : string) :
  mode <> "btc" -> mode <> "gold" ->
  buildPrompt numToString toFixed2 marketData mode
  = promptCombined numToString toFixed2 marketData.
Proof.
  intros Hbtc Hgold. unfold buildPrompt.
  apply String.eqb_neq in Hbtc, Hgold. now rewrite Hbtc, Hgold.
Qed.

(** X14. The prompt of every mode carries the figures of its assets: in mode
    ['btc'] the BTC price with its change, the funding rate and the
    formatted BTC volatility; in mode ['gold'] the gold price with its
    change and the formatted gold volatility; in any other mode both prices
    with their changes and the one-day range of both assets. *)
Theorem prompt_embeds_figures :
  forall (numToString toFixed2 : Js.num -> string)
         (marketData : AnalysisInput),
    let prompt := buildPrompt numToString toFixed2 marketData in
    let n := numToString in
    (Js.includes (prompt "btc")
       ("$" ++ n (btcPrice marketData) ++ " (24h: "
        ++ n (btcChange marketData) ++ "%)") = true
     /\ Js.includes (prompt "btc")
          ("Funding Rate " ++ n (fundingRate marketData) ++ "%") = true
     /\ Js.includes (prompt "btc")
          (formatVol numToString toFixed2 (btcVolatility marketData)) = true)
    /\ (Js.includes (prompt "gold")
          ("$" ++ n (goldPrice marketData) ++ " (24h: "
           ++ n (goldChange marketData) ++ "%)") = true
        /\ Js.includes (prompt "gold")
             (formatVol numToString toFixed2 (goldVolatility marketData))
           = true)
    /\ (forall mode : string,
          mode <> "btc" -> mode <> "gold" ->
          Js.includes (prompt mode)
            ("**BTC**: $" ++ n (btcPrice marketData) ++ " ("
             ++ n (btcChange marketData) ++ "%)") = true
          /\ Js.includes (prompt mode)
               ("**Gold**: $" ++ n (goldPrice marketData) ++ " ("
                ++ n (goldChange marketData) ++ "%)") = true
          /\ Js.includes (prompt mode)
               ("**Biến động BTC**: Range 24H là "
                ++ range24H toFixed2 (btcVolatility marketData) ++ "%") = true
          /\ Js.includes (prompt mode)
               ("**Biến động Gold**: Range 24H là "
                ++ range24H toFixed2 (goldVolatility marketData) ++ "%")
             = true).
Proof.
  intros numToString toFixed2 marketData prompt n. subst prompt n.
  split; [ | split].
  - change (buildPrompt numToString toFixed2 marketData "btc")
      with (promptBtc numToString toFixed2 marketData).
    unfold promptBtc. repeat split.
    + find_here.
    + do 4 (apply includes_app_r). find_here.
    + do 7 (apply includes_app_r). find_here.
  - change (buildPrompt numToString toFixed2 marketData "gold")
      with (promptGold numToString toFixed2 marketData).
    unfold promptGold. repeat split.
    + find_here.
    + do 5 (apply includes_app_r). find_here.
  - intros mode Hbtc Hgold.
    rewrite (buildPrompt_other _ _ _ mode Hbtc Hgold).
    unfold promptCombined. repeat split.
    + find_here.
    + do 4 (apply includes_app_r). find_here.
    + do 8 (apply includes_app_r). find_here.
    + do 10 (apply includes_app_r). find_here.
Qed.

Lemma prompt_embeds_figures_witness :
  Js.includes
    (buildPrompt sampleNumToString sampleNumToString sampleInput "combined")
    ("**BTC**: $" ++ "n" ++ " (" ++ "n" ++ "%)") = true.
Proof.
  apply (proj2 (proj2 (prompt_embeds_figures sampleNumToString
                         sampleNumToString sampleInput)) "combined").
  - discriminate.
  - discriminate.
Defined.

Lemma find_none_all {A : Type} (p : A -> bool) (l : list A) :
  (forall x, In x l -> p x = false) -> Js.find p l = None.
Proof.
  unfold Js.find. induction l as [ | x l IH]; intros Hall; cbn.
  - reflexivity.
  - rewrite (Hall x) by now left.
    apply IH. intros y Hy. apply Hall. now right.
Qed.

(** X15. When the volatility list of an asset has no entry whose label contains
    ['24'], as before the first load, when the list is empty, the combined
    prompt states the one-day range of that asset as ['undefined%']. *)
Theorem combined_prompt_undefined_range :
  forall (numToString toFixed2 : Js.num -> string)
         (marketData : AnalysisInput) (mode : string),
    mode <> "btc" -> mode <> "gold" ->
    ((forall d, In d (btcVolatility marketData) ->
                Js.includes (timeframe d) "24" = false) ->
     Js.includes (buildPrompt numToString toFixed2 marketData mode)
       "**Biến động BTC**: Range 24H là undefined%" = true)
    /\
    ((forall d, In d (goldVolatility marketData) ->
                Js.includes (timeframe d) "24" = false) ->
     Js.includes (buildPrompt numToString toFixed2 marketData mode)
       "**Biến động Gold**: Range 24H là undefined%" = true).
Proof.
  intros numToString toFixed2 marketData mode Hbtc Hgold.
  rewrite (buildPrompt_other _ _ _ mode Hbtc Hgold).
  unfold promptCombined, range24H. split; intros Hnone.
  - rewrite (find_none_all _ _ Hnone).
    do 8 (apply includes_app_r). find_here.
  - rewrite (find_none_all _ _ Hnone).
    do 10 (apply includes_app_r). find_here.
Qed.

Lemma combined_prompt_undefined_range_witness :
  Js.includes
    (buildPrompt sampleNumToString sampleNumToString sampleInput "combined")
    "**Biến động Gold**: Range 24H là undefined%" = true.
Proof.
  apply (proj2 (combined_prompt_undefined_range sampleNumToString
                  sampleNumToString sampleInput "combined"
                  ltac:(discriminate) ltac:(discriminate))).
  intros d [].
Defined.

(** X11. The one-day range that the combined prompt quotes from the result of
    [fetchHighLow] is the range of its third entry, the bucket of one day:
    of the four labels only ['24 Giờ'] contains ['24']. *)
Theorem range24H_of_fetchHighLow :
  forall (parseFloat : Js.value -> Js.num)
         (fetch : string -> fetch_outcome (list kline))
         (symbol : option string) (toFixed2 : Js.num -> string),
  exists entry,
    nth_error (fetchHighLow parseFloat fetch symbol) 2 = Some entry
    /\ timeframe entry = "24 Giờ"
    /\ range24H toFixed2 (fetchHighLow parseFloat fetch symbol)
       = toFixed2 (rangePercent entry).
Proof.
  intros parseFloat fetch symbol toFixed2.
  unfold fetchHighLow, range24H, definitions. cbn [map nth_error].
  eexists; split; [reflexivity | split].
  - apply highLowOf_timeframe.
  - unfold Js.find. cbn [List.find].
    rewrite !highLowOf_timeframe. reflexivity.
Qed.

(** ** The analysis panel *)

Lemma orElse_not_empty (result : option string) (fallback : string) :
  fallback <> "" -> orElse result fallback <> "".
Proof.
  intros Hfallback. unfold orElse.
  destruct result as [s | ]; [ | exact Hfallback].
  destruct (String.eqb_spec s ""); [exact Hfallback | assumption].
Qed.

Section PanelFacts.

Variables numToString toFixed2 : Js.num -> string.
Variable sdk : GenAI.
Variable API_KEY : option string.
Variable marketData : AnalysisInput.
Variable chartMode : string.

(** What [analyzeWith] makes of a [fetchAIAnalysis] that returns. *)
Lemma analyzeWith_returned
    (fetchAIAnalysis : Eff.M GenerateContentParameters (option string))
    (st : PanelState) (log log' : list GenerateContentParameters)
    (result : option string) :
  fetchAIAnalysis log = (Eff.Returned result, log') ->
  analyzeWith fetchAIAnalysis st log
  = (Eff.Returned {| analysis := orElse result noResponseMessage;
                     isAnalyzing := false |}, log').
Proof.
  intros Hrun. unfold analyzeWith, Eff.tryCatch, Eff.bind, Eff.ret.
  now rewrite Hrun.
Qed.

(** Both versions of [fetchAIAnalysis] return, and what they return. *)
Lemma fetchAIAnalysis_returns (log : list GenerateContentParameters) :
  let request :=
    {| model := "gemini-2.5-flash";
       contents := buildPrompt numToString toFixed2 marketData chartMode |} in
  exists result log',
    MarketService.fetchAIAnalysis numToString toFixed2 sdk API_KEY
      marketData chartMode log = (Eff.Returned result, log')
    /\ (result = Some retryLaterMessage
        \/ exists ai, GoogleGenAI sdk API_KEY = Eff.Returned ai
                      /\ generateContent sdk ai request
                         = Eff.Returned result).
Proof.
  intros request. rewrite MarketService_fetchAIAnalysis_cases.
  fold request.
  destruct (GoogleGenAI sdk API_KEY) as [ai | e]; [ | eauto].
  destruct (generateContent sdk ai request) as [text | e] eqn:Hcall; eauto 7.
Qed.

(** X16. With the key missing or empty, [handleAnalyze] of the panel component
    shows the warning about the key, sends no request and leaves the busy
    flag alone. *)
Theorem handleAnalyze_without_key
    (st : PanelState) (log : list GenerateContentParameters) :
  Js.str_falsy API_KEY = true ->
  handleAnalyze numToString toFixed2 sdk API_KEY marketData chartMode st log
  = (Eff.Returned {| analysis := keyWarningMessage;
                     isAnalyzing := isAnalyzing st |}, log).
Proof.
  intros Hkey. unfold handleAnalyze. now rewrite Hkey.
Qed.

(** X17. Whatever the SDK does, [handleAnalyze] of either panel completes
    normally with a text to show, and, once it has got past the key check,
    with the busy flag cleared. *)
Theorem handleAnalyze_settles
    (st : PanelState) (log : list GenerateContentParameters) :
  (exists st' log',
     handleAnalyze numToString toFixed2 sdk API_KEY marketData chartMode
       st log = (Eff.Returned st', log')
     /\ analysis st' <> ""
     /\ (Js.str_falsy API_KEY = false -> isAnalyzing st' = false))
  /\ (exists st' log',
        handleAnalyzeMerged numToString toFixed2 sdk API_KEY marketData
          chartMode st log = (Eff.Returned st', log')
        /\ analysis st' <> ""
        /\ isAnalyzing st' = false).
Proof.
  destruct (fetchAIAnalysis_returns log) as (result & log' & Hrun & _).
  split.
  - unfold handleAnalyze. destruct (Js.str_falsy API_KEY) eqn:Hkey.
    + do 2 eexists. split; [reflexivity | split; [discriminate | ]].
      discriminate.
    + rewrite (analyzeWith_returned _ st log log' result Hrun).
      do 2 eexists. split; [reflexivity | split; [ | reflexivity]].
      apply orElse_not_empty. discriminate.
  - unfold handleAnalyzeMerged.
    assert (exists result' log'',
              Merged.fetchAIAnalysis numToString toFixed2 sdk API_KEY
                marketData chartMode log = (Eff.Returned result', log''))
      as (result' & log'' & Hmerged).
    { rewrite Merged_fetchAIAnalysis_cases.
      destruct (Js.str_falsy API_KEY); eauto. }
    rewrite (analyzeWith_returned _ st log log'' result' Hmerged).
    do 2 eexists. split; [reflexivity | split; [ | reflexivity]].
    apply orElse_not_empty. discriminate.
Qed.

(** X18. The text a panel shows after [handleAnalyze] is one of the fixed
    messages for a missing key, a failed call or an answer without text, or
    it is the text the service answered with; the message of the [catch] of
    the panel itself is never the outcome of a failure. *)
Theorem handleAnalyze_texts
    (st : PanelState) (log : list GenerateContentParameters) :
  let request :=
    {| model := "gemini-2.5-flash";
       contents := buildPrompt numToString toFixed2 marketData chartMode |} in
  let shown (run : Eff.completion PanelState * list GenerateContentParameters)
    := exists st',
         fst run = Eff.Returned st'
         /\ (In (analysis st')
               [keyWarningMessage; notConfiguredMessage; retryLaterMessage;
                noResponseMessage]
             \/ exists ai,
                  GoogleGenAI sdk API_KEY = Eff.Returned ai
                  /\ generateContent sdk ai request
                     = Eff.Returned (Some (analysis st'))) in
  shown (handleAnalyze numToString toFixed2 sdk API_KEY marketData chartMode
           st log)
  /\ shown (handleAnalyzeMerged numToString toFixed2 sdk API_KEY marketData
              chartMode st log).
Proof.
  intros request shown.
  destruct (fetchAIAnalysis_returns log) as (result & log' & Hrun & Hresult).
  fold request in Hresult.
  assert (In (orElse result noResponseMessage)
            [keyWarningMessage; notConfiguredMessage; retryLaterMessage;
             noResponseMessage]
          \/ exists ai,
               GoogleGenAI sdk API_KEY = Eff.Returned ai
               /\ generateContent sdk ai request
                  = Eff.Returned (Some (orElse result noResponseMessage)))
    as Htext.
  { destruct Hresult as [-> | (ai & Hai & Hcall)].
    - left. cbn. auto.
    - destruct result as [s | ]; [ | left; cbn; auto].
      unfold orElse. destruct (String.eqb s ""); [left; cbn; auto | ].
      right. eauto. }
  split; unfold shown.
  - unfold handleAnalyze. destruct (Js.str_falsy API_KEY).
    + eexists. split; [reflexivity | ]. left. cbn. auto.
    + rewrite (analyzeWith_returned _ st log log' result Hrun).
      eexists. split; [reflexivity | exact Htext].
  - unfold handleAnalyzeMerged.
    destruct (Js.str_falsy API_KEY) eqn:Hkey.
    + rewrite (analyzeWith_returned _ st log log (Some notConfiguredMessage))
        by (now rewrite Merged_fetchAIAnalysis_cases, Hkey).
      eexists. split; [reflexivity | ]. left. cbn. auto.
    + rewrite (analyzeWith_returned _ st log log' result)
        by (now rewrite Merged_fetchAIAnalysis_cases, Hkey).
      eexists. split; [reflexivity | exact Htext].
Qed.

End PanelFacts.

Lemma handleAnalyze_without_key_witness :
  handleAnalyze sampleNumToString sampleNumToString (browserSdk "ok") None
    sampleInput "btc" samplePanel []
  = (Eff.Returned {| analysis := keyWarningMessage; isAnalyzing := false |},
     []).
Proof.
  apply (handleAnalyze_without_key sampleNumToString sampleNumToString
           (browserSdk "ok") None sampleInput "btc" samplePanel []).
  reflexivity.
Defined.

Lemma handleAnalyze_settles_witness :
  exists st' log',
    handleAnalyze sampleNumToString sampleNumToString downSdk (Some "key")
      sampleInput "gold" samplePanel [] = (Eff.Returned st', log')
    /\ analysis st' <> ""
    /\ isAnalyzing st' = false.
Proof.
  destruct (proj1 (handleAnalyze_settles sampleNumToString sampleNumToString
                     downSdk (Some "key") sampleInput "gold" samplePanel []))
    as (st' & log' & Hrun & Htext & Hbusy).
  exists st', log'. split; [exact Hrun | split; [exact Htext | ]].
  apply Hbusy. reflexivity.
Defined.

(** X19. In a browser, where [process] is not defined when the entry point runs,
    the key the entry point installs is the empty string, and with it
    neither application sends a request: the panel component shows its
    warning, and the panel of the merged application shows the "not
    configured" message of its [fetchAIAnalysis]. *)
Theorem browser_sends_no_request :
  forall (numToString toFixed2 : Js.num -> string) (sdk : GenAI)
         (marketData : AnalysisInput) (chartMode : string)
         (st : PanelState) (log : list GenerateContentParameters),
    let key := env_API_KEY (installProcess None) in
    handleAnalyze numToString toFixed2 sdk key marketData chartMode st log
    = (Eff.Returned {| analysis := keyWarningMessage;
                       isAnalyzing := isAnalyzing st |}, log)
    /\ handleAnalyzeMerged numToString toFixed2 sdk key marketData chartMode
         st log
       = (Eff.Returned {| analysis := notConfiguredMessage;
                          isAnalyzing := false |}, log).
Proof.
  intros numToString toFixed2 sdk marketData chartMode st log key.
  split.
  - reflexivity.
  - unfold handleAnalyzeMerged.
    now rewrite (analyzeWith_returned _ st log log
                   (Some notConfiguredMessage))
      by (now rewrite Merged_fetchAIAnalysis_cases).
Qed.

(** The entry point leaves a [process] that is defined as it is. *)
Lemma installProcess_defined (process : Process) :
  installProcess (Some process) = process.
Proof. reflexivity. Qed.

(** ** The dashboard *)

(** X20. The funding rate handed to the analysis panel is never [NaN]: it is [0]
    while there is no funding data and whenever the product is not a
    number. *)
Theorem fundingRateProp_is_a_number :
  forall fundingData : list FundingRate,
    Js.isNaN (fundingRateProp fundingData) = false
    /\ (fundingData = [] -> fundingRateProp fundingData = 0%float).
Proof.
  intros fundingData. split.
  - unfold fundingRateProp.
    destruct (nth_error fundingData 0) as [f | ]; [ | reflexivity].
    destruct (Js.num_falsy _) eqn:Hfalsy; [reflexivity | ].
    unfold Js.num_falsy in Hfalsy. now apply orb_false_elim in Hfalsy.
  - intros ->. reflexivity.
Qed.

Lemma fundingRateProp_is_a_number_witness : fundingRateProp [] = 0%float.
Proof.
  apply (proj2 (fundingRateProp_is_a_number [])). reflexivity.
Defined.

(** X21. When no request of a load is answered, the dashboard still gets a value
    for every field: the two fallback tickers, the constant funding rate of
    Binance beside the simulated one of Bybit, four zero buckets for each
    asset, an empty chart; the selection of the user is kept and the
    loading flag is cleared. *)
Theorem loadAllData_all_down :
  forall (parseFloat : Js.value -> Js.num) (net : Network) (random : Js.num)
         (toLocaleDateString toLocaleTimeString : Js.value -> string)
         (now : string) (st : Dashboard),
    (forall url, safeFetch (tickerApi net) url = None) ->
    (forall url, safeFetch (klinesApi net) url = None) ->
    (forall url, safeFetch (premiumApi net) url = None) ->
    let zeros :=
      map (fun def => {| timeframe := label def; high := 0%float;
                         low := 0%float; rangePercent := 0%float |})
        definitions in
    loadAllData parseFloat net random toLocaleDateString toLocaleTimeString
      now st
    = {| btcData := {| price := 95000%float; changePercent := 0%float;
                       change24h := None |};
         goldData := {| price := 2650%float; changePercent := 0%float;
                        change24h := None |};
         chartData := [];
         fundingData :=
           [ {| exchange := "Binance"; rate := 0.01%float |};
             {| exchange := "Bybit";
                rate := PrimFloat.add 0.01%float
                          (PrimFloat.mul random 0.005%float) |} ];
         btcHighLow := zeros; goldHighLow := zeros;
         timeFrame := timeFrame st; chartMode := chartMode st;
         loading := false; lastUpdated := now |}.
Proof.
  intros parseFloat net random dfmt tfmt now st Hticker Hklines Hpremium
    zeros.
  unfold loadAllData, setLoading. cbn [timeFrame chartMode].
  unfold fetchBTCPrice, fetchGoldPrice, fetchFundingRates.
  rewrite !Hticker, Hpremium.
  rewrite fetchChartData_unfold, !Hklines. cbn [mergeKlines].
  assert (forall symbol,
            fetchHighLow parseFloat (klinesApi net) symbol = zeros) as Hzeros.
  { intros symbol. unfold fetchHighLow, zeros. apply map_ext.
    intros def. apply highLowOf_no_data. left. apply Hklines. }
  now rewrite !Hzeros.
Qed.

Lemma loadAllData_all_down_witness :
  loadAllData sampleParseFloat allDown 0.5%float sampleLabel sampleLabel
    "12:00" initialDashboard
  = {| btcData := {| price := 95000%float; changePercent := 0%float;
                     change24h := None |};
       goldData := {| price := 2650%float; changePercent := 0%float;
                      change24h := None |};
       chartData := [];
       fundingData :=
         [ {| exchange := "Binance"; rate := 0.01%float |};
           {| exchange := "Bybit";
              rate := PrimFloat.add 0.01%float
                        (PrimFloat.mul 0.5%float 0.005%float) |} ];
       btcHighLow :=
         map (fun def => {| timeframe := label def; high := 0%float;
                            low := 0%float; rangePercent := 0%float |})
           definitions;
       goldHighLow :=
         map (fun def => {| timeframe := label def; high := 0%float;
                            low := 0%float; rangePercent := 0%float |})
           definitions;
       timeFrame := TimeFrame.H1; chartMode := "combined";
       loading := false; lastUpdated := "12:00" |}.
Proof.
  apply (loadAllData_all_down sampleParseFloat allDown 0.5%float sampleLabel
           sampleLabel "12:00" initialDashboard).
  - intros url. reflexivity.
  - intros url. reflexivity.
  - intros url. reflexivity.
Defined.

(** ** The chart component *)

(** X22. In every display mode each series that is drawn is bound to an axis
    that is drawn, and that axis has the colour of the series; and each of
    the three modes of the selector draws at least one series. *)
Theorem chart_series_have_their_axis :
  (forall (chartMode : string) (a : MarketChart.Area),
     In a (MarketChart.areas chartMode) ->
     exists x,
       In x (MarketChart.axes chartMode)
       /\ MarketChart.yAxisId x = MarketChart.areaAxisId a
       /\ MarketChart.stroke x = MarketChart.areaStroke a)
  /\ (forall chartMode : string,
        In chartMode ["combined"; "btc"; "gold"] ->
        MarketChart.areas chartMode <> []).
Proof.
  split.
  - intros chartMode a.
    unfold MarketChart.areas, MarketChart.axes, MarketChart.showRightAxis,
      MarketChart.leftAxisColor.
    destruct (String.eqb_spec chartMode "combined") as [-> | Hcombined].
    + cbn. intros [<- | [<- | []]].
      * eexists; split; [left; reflexivity | split; reflexivity].
      * eexists; split; [right; left; reflexivity | split; reflexivity].
    + destruct (String.eqb_spec chartMode "btc") as [-> | Hbtc].
      * cbn. intros [<- | []]. eexists; split; [left; reflexivity | ].
        split; reflexivity.
      * destruct (String.eqb_spec chartMode "gold") as [-> | Hgold].
        -- cbn. intros [<- | []]. eexists; split; [left; reflexivity | ].
           split; reflexivity.
        -- cbn. intros [].
  - intros chartMode [<- | [<- | [<- | []]]]; discriminate.
Qed.

Lemma chart_series_have_their_axis_witness :
  MarketChart.areas "gold" <> [].
Proof.
  apply (proj2 chart_series_have_their_axis "gold").
  right. right. left. reflexivity.
Defined.

Lemma chart_empty_iff_witness :
  fetchChartData sampleParseFloat
    (sampleFetch NetworkError (Response true 200 (Some [])))
    sampleLabel sampleLabel TimeFrame.D7 = [].
Proof.
  apply (proj2 (chart_empty_iff sampleParseFloat
                  (sampleFetch NetworkError (Response true 200 (Some [])))
                  sampleLabel sampleLabel TimeFrame.D7)).
  split; [left | right]; reflexivity.
Defined.


(** ** High/low buckets on answers of any shape *)




Section RawFacts.

Variable host : Raw.Host.
Variable parseFloat : Raw.value -> Js.num.
Variable fetch : string -> fetch_outcome Raw.value.
Variable symbol : string.


Let zeros (def : definition) : HighLowData :=
  {| timeframe := label def; high := 0%float; low := 0%float;
     rangePercent := 0%float |}.





End RawFacts.

(** On answers of the schema the callback on raw JSON returns the entry of
    the callback on candle rows. *)
Lemma highLowOf_refines (host : Raw.Host) (parseFloat : Raw.value -> Js.num)
    (fetch : string -> fetch_outcome (list kline))
    (symbol : string) (def : definition) :
  Raw.highLowOf host parseFloat (Raw.embedFetch fetch) symbol def
  = Eff.Returned
      (highLowOf (fun v => parseFloat (Raw.embed v)) fetch symbol def).
Proof.
  unfold Raw.highLowOf, highLowOf, Raw.safeFetch, safeFetch, Raw.embedFetch.
  destruct (fetch _) as [ | [ | ] status [data | ]]; try reflexivity.
  cbn [option_map Raw.embedSeries Raw.truthy negb orb Raw.lengthIsZero
         Raw.last].
  rewrite length_map.
  destruct (Nat.eqb (List.length data) 0) eqn:Hlen; [reflexivity | ].
  apply Nat.eqb_neq in Hlen.
  rewrite (nth_indep _ Raw.Undefined (Raw.embedRow []))
    by (rewrite length_map; lia).
  rewrite map_nth. unfold Raw.embedRow at 1 2. cbn [Raw.index].
  unfold Js.index.
  change Raw.Undefined with (Raw.embed Js.Undefined).
  now rewrite !map_nth.
Qed.

(** On answers of the schema [fetchHighLow] on raw JSON returns, and
    returns the list of [fetchHighLow] on candle rows. *)
Lemma fetchHighLow_refines (host : Raw.Host)
    (parseFloat : Raw.value -> Js.num)
    (fetch : string -> fetch_outcome (list kline)) (symbol : option string) :
  Raw.fetchHighLow host parseFloat (Raw.embedFetch fetch) symbol
  = Eff.Returned
      (fetchHighLow (fun v => parseFloat (Raw.embed v)) fetch symbol).
Proof.
  unfold Raw.fetchHighLow, fetchHighLow.
  induction definitions as [ | def defs IH]; [reflexivity | ].
  cbn [map Raw.all]. now rewrite highLowOf_refines, IH.
Qed.







(** C4, as the code has it.  With no credential configured (the key
    undefined or empty) no request is sent and a fixed message is shown:
    [fetchAIAnalysis] of the merged application returns the fixed "not
    configured" message, and in the component application [handleAnalyze],
    the one caller of [fetchAIAnalysis] of [services/marketService.ts],
    shows its fixed warning about the key without calling it. *)
Theorem no_credential_sends_nothing :
  forall (numToString toFixed2 : Js.num -> string) (sdk : GenAI)
         (API_KEY : option string) (marketData : AnalysisInput)
         (mode : string) (st : PanelState)
         (log : list GenerateContentParameters),
    Js.str_falsy API_KEY = true ->
    Merged.fetchAIAnalysis numToString toFixed2 sdk API_KEY marketData mode
      log
    = (Eff.Returned (Some notConfiguredMessage), log)
    /\ handleAnalyze numToString toFixed2 sdk API_KEY marketData mode st log
       = (Eff.Returned {| analysis := keyWarningMessage;
                          isAnalyzing := isAnalyzing st |}, log).
Proof.
  intros numToString toFixed2 sdk API_KEY marketData mode st log Hkey.
  split.
  - now apply Merged_fetchAIAnalysis_not_configured.
  - unfold handleAnalyze. now rewrite Hkey.
Qed.

Lemma no_credential_sends_nothing_witness :
  Merged.fetchAIAnalysis sampleNumToString sampleNumToString
    (browserSdk "ok") (Some "") sampleInput "btc" []
  = (Eff.Returned (Some notConfiguredMessage), [])
  /\ handleAnalyze sampleNumToString sampleNumToString (browserSdk "ok")
       (Some "") sampleInput "btc" samplePanel []
     = (Eff.Returned {| analysis := keyWarningMessage;
                        isAnalyzing := false |}, []).
Proof.
  apply (no_credential_sends_nothing sampleNumToString sampleNumToString
           (browserSdk "ok") (Some "") sampleInput "btc" samplePanel []).
  reflexivity.
Defined.

(** [fetchAIAnalysis] of [services/marketService.ts] called directly with
    the empty key: the request is sent and the answer is the retry-later
    message, not the "not configured" message with nothing sent. *)
Lemma marketService_direct_call_with_empty_key :
  MarketService.fetchAIAnalysis sampleNumToString sampleNumToString
    (browserSdk "ok") (Some "") sampleInput "btc" []
  = (Eff.Returned (Some retryLaterMessage),
     [ {| model := "gemini-2.5-flash";
          contents := buildPrompt sampleNumToString sampleNumToString
                        sampleInput "btc" |} ])
  /\ MarketService.fetchAIAnalysis sampleNumToString sampleNumToString
       (browserSdk "ok") (Some "") sampleInput "btc" []
     <> (Eff.Returned (Some notConfiguredMessage), []).
Proof.
  split; [reflexivity | discriminate].
Qed.

(** An answer [{}] has no length and no last row: reading the row throws as
    well.  An answer [null] is no data: every bucket is all zeros. *)
Example fetchHighLow_object_and_null_answers :
  Raw.fetchHighLow sampleHost rawParseFloat
    (fun _ => Response true 200 (Some (Raw.Obj []))) None
  = Eff.Thrown Raw.TypeError
  /\ Raw.fetchHighLow sampleHost rawParseFloat
       (fun _ => Response true 200 (Some Raw.Null)) None
     = Eff.Returned
         (map (fun def => {| timeframe := label def; high := 0%float;
                             low := 0%float; rangePercent := 0%float |})
            definitions).
Proof. split; reflexivity. Qed.
